(** * pygridgen: the CSA interpolator wrapper and the staggered-grid contract

    Part I embeds [pygridgen/csa.py] (class [CSA]): the constructor, the
    [zin] property and the call path through [_calculate_points].
    Part II embeds the reference tables and assertions of
    [pygridgen/tests/test_grid.py] and the staggered-grid rules they are
    compared with. *)

From Stdlib Require Import String List ZArith Bool Lia PrimFloat.
From Stdlib Require Import QArith Qabs Lqa.
Import ListNotations.

Set Implicit Arguments.

(** ** Python outcomes: a value or a raised exception *)

Inductive exn : Type :=
| ValueError (msg : string)
| AttributeError (msg : string)
| IndexError (msg : string)
| TypeError (msg : string).

Inductive result (A : Type) : Type :=
| Ok (a : A)
| Raise (e : exn).

Arguments Ok {A} a.
Arguments Raise {A} e.

Definition bind {A B : Type} (r : result A) (k : A -> result B) : result B :=
  match r with
  | Ok a => k a
  | Raise e => Raise e
  end.

Definition map_result {A B : Type} (f : A -> B) (r : result A) : result B :=
  bind r (fun a => Ok (f a)).

Declare Scope py_scope.
Delimit Scope py_scope with py.
Notation "x <- c ;; k" := (bind c (fun x => k))
  (at level 61, c at next level, right associativity) : py_scope.
Notation "'check' c ;; k" := (bind c (fun _ => k))
  (at level 61, c at next level, right associativity) : py_scope.

Definition is_ValueError {A : Type} (r : result A) : bool :=
  match r with
  | Raise (ValueError _) => true
  | _ => false
  end.

Definition is_Ok {A : Type} (r : result A) : bool :=
  match r with
  | Ok _ => true
  | Raise _ => false
  end.

(** ** numpy arrays of doubles, as far as [csa.py] looks at them *)

Module Numpy.

(** An [ndarray] of float64: its shape and its elements in flat
    (row-major) order. *)
Record ndarray : Type := mk_ndarray {
  shape : list nat;
  flat : list float
}.

(** [a.size]: the number of elements. *)
Definition size (a : ndarray) : nat := length (flat a).

(** numpy keeps [prod shape = size]. *)
Definition wf (a : ndarray) : Prop := fold_right Nat.mul 1%nat (shape a) = size a.

(** What the callers of [CSA] pass where the docstring says
    "array-like": a Python list of floats or an ndarray. *)
Inductive array_like : Type :=
| PyList (l : list float)
| PyArray (a : ndarray).

(** [numpy.asarray]: a list becomes a one-dimensional array, an array is
    returned as it is. *)
Definition asarray (v : array_like) : ndarray :=
  match v with
  | PyList l => mk_ndarray [length l] l
  | PyArray a => a
  end.

(** Attribute access [v.size] on the object itself: a Python list has no
    such attribute. *)
Definition attr_size (v : array_like) : result nat :=
  match v with
  | PyArray a => Ok (size a)
  | PyList _ => Raise (AttributeError "'list' object has no attribute 'size'")
  end.

(** Attribute access [v.flat] on the object itself. *)
Definition attr_flat (v : array_like) : result (list float) :=
  match v with
  | PyArray a => Ok (flat a)
  | PyList _ => Raise (AttributeError "'list' object has no attribute 'flat'")
  end.

(** [a.shape = s]: numpy refuses a shape of another total size. *)
Definition set_shape (a : ndarray) (s : list nat) : result ndarray :=
  if Nat.eqb (fold_right Nat.mul 1%nat s) (size a)
  then Ok (mk_ndarray s (flat a))
  else Raise (ValueError "cannot reshape array").

(** A masked array: data, and a mask entry per element ([true] = masked). *)
Record masked_array : Type := mk_masked {
  ma_shape : list nat;
  ma_data : list float;
  ma_mask : list bool
}.

(** [numpy.isnan], elementwise. *)
Definition isnan (a : ndarray) : list bool := map PrimFloat.is_nan (flat a).

(** [numpy.ma.masked_where(condition, a)]. *)
Definition masked_where (condition : list bool) (a : ndarray) : masked_array :=
  mk_masked (shape a) (flat a) condition.

End Numpy.

(** ** ctypes values built by [_calculate_points] *)

Module Ctypes.

(** [ctypes.c_int(v)]: no overflow check, the value is kept modulo 2^32 and
    read back as a signed 32-bit integer. *)
Definition c_int (v : Z) : Z :=
  ((v + 2 ^ 31) mod 2 ^ 32 - 2 ^ 31)%Z.

(** The ctypes array type [c_double * n] called on unpacked [values]: an
    array of [n] doubles, initialised from the front; missing initialisers
    are zero, more than [n] of them raise IndexError. *)
Definition c_double_array (n : nat) (values : list float) : result (list float) :=
  if Nat.leb (length values) n
  then Ok (values ++ repeat PrimFloat.zero (n - length values))
  else Raise (IndexError "invalid index").

End Ctypes.

(** ** [class CSA] of [pygridgen/csa.py] *)

Module CSA.

Import Numpy Ctypes.
Local Open Scope py_scope.

(** [sigma]: a number or something array-like (the docstring's
    "array-like or None"; [None] is [option]'s). *)
Inductive sigma_t : Type :=
| SigmaScalar (s : float)
| SigmaArray (v : array_like).

(** The attributes [__init__] sets on [self]. *)
Record t : Type := mk {
  xin : ndarray;
  yin : ndarray;
  _zin : array_like;
  sigma : option sigma_t;
  k : Z;
  nppc : Z;
  npmin : Z;
  npmax : Z
}.

(** [CSA.__init__(self, xin, yin, zin, sigma=None, npmin=3, npmax=40, k=140,
    nppc=5)].  The size test reads [.size] of the arguments as passed, not of
    the converted [self.xin] and [self.yin]; [zin] goes into [_zin] directly,
    not through the property's setter; the tunables are stored as given. *)
Definition __init__ (xin yin zin : array_like) (sigma : option sigma_t)
    (npmin npmax k nppc : Z) : result t :=
  let self_xin := asarray xin in
  let self_yin := asarray yin in
  xin_size <- attr_size xin ;;
  yin_size <- attr_size yin ;;
  if negb (Nat.eqb xin_size yin_size)
  then Raise (ValueError "xin and yin must have the same number of elements")
  else Ok (mk self_xin self_yin zin sigma k nppc npmin npmax).

(** The keyword defaults of [__init__]. *)
Definition default_npmin : Z := 3.
Definition default_npmax : Z := 40.
Definition default_k : Z := 140.
Definition default_nppc : Z := 5.

(** The [zin] property: the getter. *)
Definition zin (self : t) : array_like := _zin self.

Definition with_zin (self : t) (value : array_like) : t :=
  mk (xin self) (yin self) value (sigma self) (k self) (nppc self)
     (npmin self) (npmax self).

(** The [zin] property: the setter.  A method that may assign to [self]
    returns its outcome together with the object as it leaves it. *)
Definition set_zin (value : array_like) (self : t) : result unit * t :=
  let zin := asarray value in
  if negb (Nat.eqb (size zin) (size (xin self)))
  then (Raise (ValueError "zin must have the same number of elements as xin and yin"), self)
  else (Ok tt, with_zin self value).

Section Library.

(** [libcsa]'s [csa_approximatepoints2], reached through ctypes: the counts,
    the input arrays, [sigma] ([None] is the NULL pointer), the output
    coordinates and the four tunables; the returned [double*] is read by
    index. *)
Variable csa_approximatepoints2 :
  Z -> list float -> list float -> list float -> option (list float) ->
  Z -> list float -> list float -> Z -> Z -> Z -> Z -> nat -> float.

(** numpy's broadcasting product [self.sigma * numpy.ones_like(self.xin)],
    unpacked element by element as the star-argument of the call does. *)
Variable sigma_times_ones : sigma_t -> ndarray -> result (list float).

(** The [sigma] argument of the C call. *)
Definition sigma_argument (self : t) : result (option (list float)) :=
  match sigma self with
  | None => Ok None
  | Some s =>
      values <- sigma_times_ones s (xin self) ;;
      a <- c_double_array (size (xin self)) values ;;
      Ok (Some a)
  end.

(** The values the C routine computes for a call, as the list
    [[zout[i] for i in range(nout)]]. *)
Definition approximated (self : t) (sg : option (list float))
    (axin ayin azin axout ayout : list float) (nout : nat) : list float :=
  let zout :=
    csa_approximatepoints2
      (c_int (Z.of_nat (size (xin self)))) axin ayin azin sg
      (c_int (Z.of_nat nout)) axout ayout
      (c_int (npmin self)) (c_int (npmax self)) (c_int (k self)) (c_int (nppc self)) in
  map zout (seq 0 nout).

(** [CSA._calculate_points(self, xout, yout)]. *)
Definition _calculate_points (self : t) (xout yout : array_like) : result masked_array :=
  let xout := asarray xout in
  let yout := asarray yout in
  let nin := size (xin self) in
  let nout := size xout in
  sg <- sigma_argument self ;;
  axin <- c_double_array nin (flat (xin self)) ;;
  ayin <- c_double_array nin (flat (yin self)) ;;
  zflat <- attr_flat (_zin self) ;;
  azin <- c_double_array nin zflat ;;
  axout <- c_double_array nout (flat xout) ;;
  ayout <- c_double_array nout (flat yout) ;;
  let zout := asarray (PyList (approximated self sg axin ayin azin axout ayout nout)) in
  zout <- set_shape zout (shape xout) ;;
  Ok (masked_where (isnan zout) zout).

(** [CSA.__call__(self, xout, yout)]. *)
Definition __call__ (self : t) (xout yout : array_like) : result masked_array :=
  let xout := asarray xout in
  let yout := asarray yout in
  _calculate_points self (PyArray xout) (PyArray yout).

End Library.

End CSA.

(** ** Stand-ins for the two library routines, to run the call path *)

Module CSAExample.

Import Numpy Ctypes CSA.
Local Open Scope float_scope.

(** A routine in the place of [csa_approximatepoints2]: no value (NaN) at
    every output point whose [xout] is negative, and the sum of the
    coordinates elsewhere. *)
Definition half_plane_fit (nin : Z) (xin yin zin : list float) (sg : option (list float))
    (nout : Z) (xout yout : list float) (npmin npmax k nppc : Z) (i : nat) : float :=
  let x := nth i xout 0 in
  if PrimFloat.ltb x 0 then PrimFloat.nan else x + nth i yout 0.

(** The broadcasting product for a scalar or for a one-dimensional array of
    [xin]'s shape; other operands are refused. *)
Definition broadcast_1d (s : sigma_t) (xin : ndarray) : result (list float) :=
  match s, shape xin with
  | SigmaScalar c, [n] => Ok (map (fun one => c * one) (repeat 1 n))
  | SigmaArray v, [n] =>
      if Nat.eqb (size (asarray v)) n
      then Ok (map (fun c => c * 1) (flat (asarray v)))
      else Raise (ValueError "operands could not be broadcast together")
  | _, _ => Raise (TypeError "not a one-dimensional operand")
  end.

Definition points3 : ndarray := mk_ndarray [3%nat] [0; 1; 2].
Definition grid2x2_x : ndarray := mk_ndarray [2%nat; 2%nat] [-1; 0.5; 1; -2].
Definition grid2x2_y : ndarray := mk_ndarray [2%nat; 2%nat] [0; 0.25; 1; 3].

(** An interpolator over three points. *)
Definition csa3 : t :=
  mk points3 points3 (PyArray points3) None default_k default_nppc default_npmin default_npmax.

End CSAExample.

(** * Part II: the grid's staggered arrays, as [tests/test_grid.py] sees them *)

(** ** [numpy.testing] *)

Module Testing.

Local Open Scope Q_scope.

(** A two-dimensional float array: the list of its rows.  The tables of the
    tests are decimal literals, read here as exact rationals. *)
Definition matrix : Type := list (list Q).

Definition Qltb (a b : Q) : bool := negb (Qle_bool b a).

(** [p] holds of every pair of elements at the same position, and the two
    lists have the same length. *)
Fixpoint all2 {A B : Type} (p : A -> B -> bool) (l : list A) (m : list B) : bool :=
  match l, m with
  | [], [] => true
  | a :: l', b :: m' => p a b && all2 p l' m'
  | _, _ => false
  end.

(** [1.5 * 10.0**(-decimal)]. *)
Definition tolerance (decimal : nat) : Q :=
  1.5 * / inject_Z (10 ^ Z.of_nat decimal).

(** [numpy.testing.assert_array_almost_equal(actual, desired, decimal)]:
    [true] when the assertion passes, that is when the shapes agree and
    [abs(actual - desired) < 1.5 * 10**(-decimal)] at every position. *)
Definition assert_array_almost_equal (actual desired : matrix) (decimal : nat) : bool :=
  all2 (all2 (fun a d => Qltb (Qabs (a - d)) (tolerance decimal))) actual desired.

End Testing.

(** ** The reference tables of [tests/test_grid.py]

    [-0.] of the source is written [0]; the ['boundary'] and ['ortho']
    entries of the dictionaries, which the array tests do not read, are left
    out. *)

Module Knowns.

Import Testing.
Local Open Scope Q_scope.
Local Open Scope string_scope.

(** The dictionary a [known_xy_*] function returns: array names to
    [(x, y)] pairs. *)
Definition knowns : Type := list (string * (matrix * matrix)).

Fixpoint lookup (key : string) (d : knowns) : option (matrix * matrix) :=
  match d with
  | [] => None
  | (k, v) :: d' => if String.eqb key k then Some v else lookup key d'
  end.

(** [known_xy_basic()]. *)

Module known_xy_basic.

Definition x : list Q := [0; 1; 2; 1; 0].
Definition y : list Q := [0; 0; 0.5; 1; 1].

Definition known_x : matrix := [
  [   1; 1.12;    2; 1.12;    1];
  [0.96; 1.03; 1.17; 1.03; 0.96];
  [0.87; 0.91; 0.96; 0.91; 0.87];
  [0.77; 0.78;  0.8; 0.78; 0.77];
  [0.65; 0.65; 0.66; 0.65; 0.65];
  [0.52; 0.52; 0.53; 0.52; 0.52];
  [0.39; 0.39; 0.39; 0.39; 0.39];
  [0.26; 0.26; 0.26; 0.26; 0.26];
  [0.13; 0.13; 0.13; 0.13; 0.13];
  [   0;    0;    0;    0;    0]
].

Definition known_y : matrix := [
  [   0; 0.06;  0.5; 0.94;    1];
  [   0; 0.16;  0.5; 0.84;    1];
  [   0; 0.21;  0.5; 0.79;    1];
  [   0; 0.23;  0.5; 0.77;    1];
  [   0; 0.24;  0.5; 0.76;    1];
  [   0; 0.25;  0.5; 0.75;    1];
  [   0; 0.25;  0.5; 0.75;    1];
  [   0; 0.25;  0.5; 0.75;    1];
  [   0; 0.25;  0.5; 0.75;    1];
  [   0; 0.25;  0.5; 0.75;    1]
].

Definition known_x_psi : matrix := [
  [1.03; 1.17; 1.03];
  [0.91; 0.96; 0.91];
  [0.78;  0.8; 0.78];
  [0.65; 0.66; 0.65];
  [0.52; 0.53; 0.52];
  [0.39; 0.39; 0.39];
  [0.26; 0.26; 0.26];
  [0.13; 0.13; 0.13]
].

Definition known_y_psi : matrix := [
  [0.16;  0.5; 0.84];
  [0.21;  0.5; 0.79];
  [0.23;  0.5; 0.77];
  [0.24;  0.5; 0.76];
  [0.25;  0.5; 0.75];
  [0.25;  0.5; 0.75];
  [0.25;  0.5; 0.75];
  [0.25;  0.5; 0.75]
].

Definition known_x_rho : matrix := [
  [1.03; 1.33; 1.33; 1.03];
  [0.94; 1.02; 1.02; 0.94];
  [0.83; 0.87; 0.87; 0.83];
  [0.71; 0.73; 0.73; 0.71];
  [0.59; 0.59; 0.59; 0.59];
  [0.46; 0.46; 0.46; 0.46];
  [0.33; 0.33; 0.33; 0.33];
  [ 0.2;  0.2;  0.2;  0.2];
  [0.07; 0.07; 0.07; 0.07]
].

Definition known_y_rho : matrix := [
  [0.05;  0.3;  0.7; 0.95];
  [0.09; 0.34; 0.66; 0.91];
  [0.11; 0.36; 0.64; 0.89];
  [0.12; 0.37; 0.63; 0.88];
  [0.12; 0.37; 0.63; 0.88];
  [0.12; 0.37; 0.63; 0.88];
  [0.12; 0.37; 0.63; 0.88];
  [0.12; 0.37; 0.63; 0.88];
  [0.12; 0.37; 0.63; 0.88]
].

Definition known_x_u : matrix := [
  [1.08; 1.58; 1.08];
  [0.97; 1.06; 0.97];
  [0.85; 0.88; 0.85];
  [0.72; 0.73; 0.72];
  [0.59; 0.59; 0.59];
  [0.46; 0.46; 0.46];
  [0.33; 0.33; 0.33];
  [ 0.2;  0.2;  0.2];
  [0.07; 0.07; 0.07]
].

Definition known_x_v : matrix := [
  [   1;  1.1;  1.1;    1];
  [0.89; 0.94; 0.94; 0.89];
  [0.78; 0.79; 0.79; 0.78];
  [0.65; 0.66; 0.66; 0.65];
  [0.52; 0.53; 0.53; 0.52];
  [0.39; 0.39; 0.39; 0.39];
  [0.26; 0.26; 0.26; 0.26];
  [0.13; 0.13; 0.13; 0.13]
].

Definition known_y_u : matrix := [
  [0.11;  0.5; 0.89];
  [0.18;  0.5; 0.82];
  [0.22;  0.5; 0.78];
  [0.24;  0.5; 0.76];
  [0.24;  0.5; 0.76];
  [0.25;  0.5; 0.75];
  [0.25;  0.5; 0.75];
  [0.25;  0.5; 0.75];
  [0.25;  0.5; 0.75]
].

Definition known_y_v : matrix := [
  [0.08; 0.33; 0.67; 0.92];
  [ 0.1; 0.35; 0.65;  0.9];
  [0.12; 0.37; 0.63; 0.88];
  [0.12; 0.37; 0.63; 0.88];
  [0.12; 0.37; 0.63; 0.88];
  [0.12; 0.37; 0.63; 0.88];
  [0.12; 0.37; 0.63; 0.88];
  [0.12; 0.37; 0.63; 0.88]
].

Definition known : knowns := [
  ("vert", (known_x, known_y));
  ("psi", (known_x_psi, known_y_psi));
  ("rho", (known_x_rho, known_y_rho));
  ("u", (known_x_u, known_y_u));
  ("v", (known_x_v, known_y_v))
].

End known_xy_basic.

(** [known_xy_focused()]. *)

Module known_xy_focused.

Definition x : list Q := [0; 1; 2; 1; 0].
Definition y : list Q := [0; 0; 0.5; 1; 1].

Definition known_x : matrix := [
  [   1; 1.04; 1.12; 1.27;    2; 1.27; 1.12; 1.04;    1];
  [0.95; 0.97; 1.02;  1.1; 1.15;  1.1; 1.02; 0.97; 0.95];
  [0.86; 0.87; 0.89; 0.92; 0.93; 0.92; 0.89; 0.87; 0.86];
  [0.73; 0.74; 0.75; 0.76; 0.76; 0.76; 0.75; 0.74; 0.73];
  [0.59; 0.59;  0.6;  0.6;  0.6;  0.6;  0.6; 0.59; 0.59];
  [0.45; 0.45; 0.45; 0.45; 0.45; 0.45; 0.45; 0.45; 0.45];
  [ 0.3;  0.3;  0.3;  0.3;  0.3;  0.3;  0.3;  0.3;  0.3];
  [0.15; 0.15; 0.15; 0.15; 0.15; 0.15; 0.15; 0.15; 0.15];
  [   0;    0;    0;    0;    0;    0;    0;    0;    0]
].

Definition known_y : matrix := [
  [   0; 0.02; 0.06; 0.14;  0.5; 0.86; 0.94; 0.98;    1];
  [   0; 0.07; 0.16;  0.3;  0.5;  0.7; 0.84; 0.93;    1];
  [   0;  0.1; 0.21; 0.35;  0.5; 0.65; 0.79;  0.9;    1];
  [   0; 0.12; 0.24; 0.37;  0.5; 0.63; 0.76; 0.88;    1];
  [   0; 0.12; 0.25; 0.37;  0.5; 0.63; 0.75; 0.88;    1];
  [   0; 0.12; 0.25; 0.37;  0.5; 0.63; 0.75; 0.88;    1];
  [   0; 0.13; 0.25; 0.38;  0.5; 0.62; 0.75; 0.87;    1];
  [   0; 0.13; 0.25; 0.38;  0.5; 0.62; 0.75; 0.87;    1];
  [   0; 0.13; 0.25; 0.38;  0.5; 0.62; 0.75; 0.87;    1]
].

Definition known_x_psi : matrix := [
  [0.97; 1.02;  1.1; 1.15;  1.1; 1.02; 0.97];
  [0.87; 0.89; 0.92; 0.93; 0.92; 0.89; 0.87];
  [0.74; 0.75; 0.76; 0.76; 0.76; 0.75; 0.74];
  [0.59;  0.6;  0.6;  0.6;  0.6;  0.6; 0.59];
  [0.45; 0.45; 0.45; 0.45; 0.45; 0.45; 0.45];
  [ 0.3;  0.3;  0.3;  0.3;  0.3;  0.3;  0.3];
  [0.15; 0.15; 0.15; 0.15; 0.15; 0.15; 0.15]
].

Definition known_y_psi : matrix := [
  [0.07; 0.16;  0.3;  0.5;  0.7; 0.84; 0.93];
  [ 0.1; 0.21; 0.35;  0.5; 0.65; 0.79;  0.9];
  [0.12; 0.24; 0.37;  0.5; 0.63; 0.76; 0.88];
  [0.12; 0.25; 0.37;  0.5; 0.63; 0.75; 0.88];
  [0.12; 0.25; 0.37;  0.5; 0.63; 0.75; 0.88];
  [0.13; 0.25; 0.38;  0.5; 0.62; 0.75; 0.87];
  [0.13; 0.25; 0.38;  0.5; 0.62; 0.75; 0.87]
].

Definition known_x_rho : matrix := [
  [0.99; 1.04; 1.13; 1.38; 1.38; 1.13; 1.04; 0.99];
  [0.91; 0.94; 0.98; 1.02; 1.02; 0.98; 0.94; 0.91];
  [ 0.8; 0.81; 0.83; 0.84; 0.84; 0.83; 0.81;  0.8];
  [0.66; 0.67; 0.68; 0.68; 0.68; 0.68; 0.67; 0.66];
  [0.52; 0.52; 0.52; 0.53; 0.53; 0.52; 0.52; 0.52];
  [0.37; 0.37; 0.37; 0.37; 0.37; 0.37; 0.37; 0.37];
  [0.22; 0.22; 0.22; 0.22; 0.22; 0.22; 0.22; 0.22];
  [0.07; 0.07; 0.07; 0.07; 0.07; 0.07; 0.07; 0.07]
].

Definition known_y_rho : matrix := [
  [0.02; 0.08; 0.16; 0.36; 0.64; 0.84; 0.92; 0.98];
  [0.04; 0.14; 0.26; 0.41; 0.59; 0.74; 0.86; 0.96];
  [0.05; 0.17; 0.29; 0.43; 0.57; 0.71; 0.83; 0.95];
  [0.06; 0.18;  0.3; 0.43; 0.57;  0.7; 0.82; 0.94];
  [0.06; 0.19; 0.31; 0.44; 0.56; 0.69; 0.81; 0.94];
  [0.06; 0.19; 0.31; 0.44; 0.56; 0.69; 0.81; 0.94];
  [0.06; 0.19; 0.31; 0.44; 0.56; 0.69; 0.81; 0.94];
  [0.06; 0.19; 0.31; 0.44; 0.56; 0.69; 0.81; 0.94]
].

Definition known_x_u : matrix := [
  [   1; 1.07; 1.19; 1.57; 1.19; 1.07;    1];
  [0.92; 0.96; 1.01; 1.04; 1.01; 0.96; 0.92];
  [ 0.8; 0.82; 0.84; 0.85; 0.84; 0.82;  0.8];
  [0.66; 0.67; 0.68; 0.68; 0.68; 0.67; 0.66];
  [0.52; 0.52; 0.53; 0.53; 0.53; 0.52; 0.52];
  [0.37; 0.37; 0.37; 0.38; 0.37; 0.37; 0.37];
  [0.22; 0.22; 0.22; 0.22; 0.22; 0.22; 0.22];
  [0.07; 0.07; 0.07; 0.07; 0.07; 0.07; 0.07]
].

Definition known_x_v : matrix := [
  [0.96;    1; 1.06; 1.12; 1.12; 1.06;    1; 0.96];
  [0.86; 0.88;  0.9; 0.92; 0.92;  0.9; 0.88; 0.86];
  [0.73; 0.74; 0.75; 0.76; 0.76; 0.75; 0.74; 0.73];
  [0.59;  0.6;  0.6;  0.6;  0.6;  0.6;  0.6; 0.59];
  [0.45; 0.45; 0.45; 0.45; 0.45; 0.45; 0.45; 0.45];
  [ 0.3;  0.3;  0.3;  0.3;  0.3;  0.3;  0.3;  0.3];
  [0.15; 0.15; 0.15; 0.15; 0.15; 0.15; 0.15; 0.15]
].

Definition known_y_u : matrix := [
  [0.04; 0.11; 0.22;  0.5; 0.78; 0.89; 0.96];
  [0.09; 0.19; 0.32;  0.5; 0.68; 0.81; 0.91];
  [0.11; 0.23; 0.36;  0.5; 0.64; 0.77; 0.89];
  [0.12; 0.24; 0.37;  0.5; 0.63; 0.76; 0.88];
  [0.12; 0.25; 0.37;  0.5; 0.63; 0.75; 0.88];
  [0.13; 0.25; 0.37;  0.5; 0.63; 0.75; 0.87];
  [0.13; 0.25; 0.38;  0.5; 0.62; 0.75; 0.87];
  [0.13; 0.25; 0.38;  0.5; 0.62; 0.75; 0.87]
].

Definition known_y_v : matrix := [
  [0.04; 0.12; 0.23;  0.4;  0.6; 0.77; 0.88; 0.96];
  [0.05; 0.16; 0.28; 0.42; 0.58; 0.72; 0.84; 0.95];
  [0.06; 0.18;  0.3; 0.43; 0.57;  0.7; 0.82; 0.94];
  [0.06; 0.18; 0.31; 0.44; 0.56; 0.69; 0.82; 0.94];
  [0.06; 0.19; 0.31; 0.44; 0.56; 0.69; 0.81; 0.94];
  [0.06; 0.19; 0.31; 0.44; 0.56; 0.69; 0.81; 0.94];
  [0.06; 0.19; 0.31; 0.44; 0.56; 0.69; 0.81; 0.94]
].

Definition known : knowns := [
  ("vert", (known_x, known_y));
  ("psi", (known_x_psi, known_y_psi));
  ("rho", (known_x_rho, known_y_rho));
  ("u", (known_x_u, known_y_u));
  ("v", (known_x_v, known_y_v))
].

End known_xy_focused.

(** [known_xy_with_proj()]. *)

Module known_xy_with_proj.

Definition x : list Q := [(-122.7); (-122.5); (-122.1); (-121.7); (-122.1); (-122.3)].
Definition y : list Q := [44.5; 45; 45.5; 45.5; 45; 44.5].

Definition known_x : matrix := [
  [523849.33; 537634.03; 547839.75; 555648.45];
  [526581.75; 538098.95; 548230.37; 556959.19];
  [528706.88;  539280.4; 549285.71; 558586.48];
  [530680.14; 540779.61; 550703.53; 560332.94];
  [532573.13; 542376.34; 552276.84; 562147.52];
  [534399.75; 543920.09; 553868.86; 564017.21];
  [536134.21; 545225.84; 555367.56; 565953.24];
  [ 537693.4; 545930.59;  556686.9; 567971.74];
  [538892.32; 545175.68; 557971.63; 569945.95];
  [539407.65; 541507.67; 553438.74; 570933.77]
].

Definition known_y : matrix := [
  [4927452.94; 4927537.26; 4927599.69; 4927647.45];
  [4937221.02; 4935113.05; 4933970.41; 4932423.55];
  [4944818.07; 4942360.57; 4940479.26; 4938353.08];
  [4951872.24; 4949330.44;  4947109.6; 4944716.87];
  [4958639.43; 4956134.07;  4953832.9; 4951328.87];
  [4965169.39; 4962831.75; 4960667.24; 4958141.67];
  [4971369.87; 4969442.43; 4967703.75; 4965196.22];
  [4976943.77; 4975952.38; 4975210.77; 4972551.26];
  [4981229.76; 4982185.84; 4984280.65; 4979744.91];
  [4983071.99; 4986864.71; 5008412.78; 4983344.35]
].

Definition known_x_psi : matrix := [
  [538098.95; 548230.37];
  [ 539280.4; 549285.71];
  [540779.61; 550703.53];
  [542376.34; 552276.84];
  [543920.09; 553868.86];
  [545225.84; 555367.56];
  [545930.59;  556686.9];
  [545175.68; 557971.63]
].

Definition known_y_psi : matrix := [
  [4935113.05; 4933970.41];
  [4942360.57; 4940479.26];
  [4949330.44;  4947109.6];
  [4956134.07;  4953832.9];
  [4962831.75; 4960667.24];
  [4969442.43; 4967703.75];
  [4975952.38; 4975210.77];
  [4982185.84; 4984280.65]
].

Definition known_x_rho : matrix := [
  [531541.02; 542950.78; 552169.44];
  [533166.99; 543723.86; 553265.44];
  [534861.76; 545012.31; 554727.16];
  [ 536602.3; 546534.08; 556365.21];
  [538317.33; 548110.53; 558077.61];
  [539919.98; 549595.59; 559801.72];
  [541246.01; 550802.72; 561494.86];
  [   541923;  551441.2; 563144.06];
  [541245.83; 549523.43; 563072.52]
].

Definition known_y_rho : matrix := [
  [4931831.07;  4931055.1; 4930410.27];
  [4939878.18; 4937980.82; 4936306.57];
  [4947095.33; 4944819.97;  4942664.7];
  [4953994.04; 4951601.75; 4949247.06];
  [4960693.66; 4958366.49; 4955992.67];
  [4967203.36; 4965161.29; 4962927.22];
  [4973427.11; 4972077.33;  4970165.5];
  [4979077.94; 4979407.41;  4977946.9];
  [4983338.07;    4990436; 4988945.67]
].

Definition known_x_u : matrix := [
  [537866.49; 548035.06];
  [538689.67; 548758.04];
  [   540030; 549994.62];
  [541577.97; 551490.18];
  [543148.21; 553072.85];
  [544572.97; 554618.21];
  [545578.22; 556027.23];
  [545553.13; 557329.27];
  [543341.67; 555705.19]
].

Definition known_x_v : matrix := [
  [532340.35; 543164.66; 552594.78];
  [533993.64; 544283.05;  553936.1];
  [535729.88; 545741.57; 555518.23];
  [537474.73; 547326.59; 557212.18];
  [539159.92; 548894.47; 558943.03];
  [540680.03;  550296.7;  560660.4];
  [   541812; 551308.74; 562329.32];
  [   542034; 551573.65; 563958.79]
].

Definition known_y_u : matrix := [
  [4931325.16; 4930785.05];
  [4938736.81; 4937224.83];
  [4945845.51; 4943794.43];
  [4952732.25; 4950471.25];
  [4959482.91; 4957250.07];
  [4966137.09; 4964185.49];
  [4972697.41; 4971457.26];
  [4979069.11; 4979745.71];
  [4984525.28; 4996346.71]
].

Definition known_y_v : matrix := [
  [4936167.04; 4934541.73; 4933196.98];
  [4943589.32; 4941419.92; 4939416.17];
  [4950601.34; 4948220.02; 4945913.24];
  [4957386.75; 4954983.48; 4952580.89];
  [4964000.57;  4961749.5; 4959404.45];
  [4970406.15; 4968573.09; 4966449.98];
  [4976448.08; 4975581.57; 4973881.01];
  [ 4981707.8; 4983233.25; 4982012.78]
].

Definition known : knowns := [
  ("vert", (known_x, known_y));
  ("psi", (known_x_psi, known_y_psi));
  ("rho", (known_x_rho, known_y_rho));
  ("u", (known_x_u, known_y_u));
  ("v", (known_x_v, known_y_v))
].

End known_xy_with_proj.
End Knowns.

(** ** The grid object, as the tests read it *)

Module Grid.

Import Testing Knowns.
Local Open Scope Q_scope.
Local Open Scope string_scope.

(** The array attributes of a generated [pygridgen.Gridgen] that
    [test_xy] and [test_other_arrays] read. *)
Record grid : Type := mk_grid {
  x : matrix;
  y : matrix;
  x_vert : matrix;
  y_vert : matrix;
  x_psi : matrix;
  y_psi : matrix;
  x_rho : matrix;
  y_rho : matrix;
  x_u : matrix;
  y_u : matrix;
  x_v : matrix;
  y_v : matrix
}.

(** [getattr(grid, name)] for the array attributes. *)
Definition getattr (g : grid) (name : string) : option matrix :=
  if String.eqb name "x" then Some (x g)
  else if String.eqb name "y" then Some (y g)
  else if String.eqb name "x_vert" then Some (x_vert g)
  else if String.eqb name "y_vert" then Some (y_vert g)
  else if String.eqb name "x_psi" then Some (x_psi g)
  else if String.eqb name "y_psi" then Some (y_psi g)
  else if String.eqb name "x_rho" then Some (x_rho g)
  else if String.eqb name "y_rho" then Some (y_rho g)
  else if String.eqb name "x_u" then Some (x_u g)
  else if String.eqb name "y_u" then Some (y_u g)
  else if String.eqb name "x_v" then Some (x_v g)
  else if String.eqb name "y_v" then Some (y_v g)
  else None.

(** [test_xy(grid_and_knowns)]: [true] when both assertions pass. *)
Definition test_xy (g : grid) (known : knowns) : bool :=
  match lookup "vert" known with
  | Some (kx, ky) =>
      assert_array_almost_equal (x g) kx 2 && assert_array_almost_equal (y g) ky 2
  | None => false
  end.

(** [test_other_arrays(grid_and_knowns, attr_suffix)]: [true] when both
    assertions pass. *)
Definition test_other_arrays (g : grid) (known : knowns) (attr_suffix : string) : bool :=
  match getattr g ("x_" ++ attr_suffix), getattr g ("y_" ++ attr_suffix),
        lookup attr_suffix known with
  | Some gx, Some gy, Some (kx, ky) =>
      assert_array_almost_equal gx kx 2 && assert_array_almost_equal gy ky 2
  | _, _, _ => false
  end.

(** The suffixes [test_other_arrays] is parametrised with. *)
Definition attr_suffixes : list string := ["vert"; "psi"; "rho"; "u"; "v"].

(** The grid whose arrays are exactly the tables of a dictionary. *)
Definition reference_grid (known : knowns) : grid :=
  let get s := match lookup s known with Some p => p | None => ([], []) end in
  mk_grid (fst (get "vert")) (snd (get "vert"))
          (fst (get "vert")) (snd (get "vert"))
          (fst (get "psi")) (snd (get "psi"))
          (fst (get "rho")) (snd (get "rho"))
          (fst (get "u")) (snd (get "u"))
          (fst (get "v")) (snd (get "v")).

End Grid.

(** ** The staggered arrays derived from the primary array *)

Module StaggerDeriver.

Import Testing Grid.
Local Open Scope Q_scope.

(** [X[i, j]], when both indices are in range. *)
Definition get (X : matrix) (i j : nat) : option Q :=
  match nth_error X i with
  | Some row => nth_error row j
  | None => None
  end.

(** [X[i, j]] for indices known to be in range. *)
Definition entry (X : matrix) (i j : nat) : Q := nth j (nth i X []) 0.

(** [(ny, nx)] of an array given by its rows. *)
Definition ny (X : matrix) : nat := length X.
Definition nx (X : matrix) : nat := length (hd [] X).

(** [X] has [rows] rows of [cols] entries each. *)
Definition has_shape (X : matrix) (rows cols : nat) : Prop :=
  length X = rows /\ Forall (fun row => length row = cols) X.

(** The array of shape [(rows, cols)] whose entry [(i, j)] is [f i j]. *)
Definition tabulate (rows cols : nat) (f : nat -> nat -> Q) : matrix :=
  map (fun i => map (fun j => f i j) (seq 0 cols)) (seq 0 rows).

(** The arithmetic mean. *)
Definition average (l : list Q) : Q :=
  fold_right Qplus 0 l / inject_Z (Z.of_nat (length l)).

(** Modelled from the spec: [pygridgen/grid.py], which derives the staggered
    arrays, is not among the sources.  Spec 4.4: [psi[i,j] = X[i+1, j+1]] for
    [i in [0, ny-3], j in [0, nx-3]], shape [(ny-2, nx-2)]. *)
Definition psi (X : matrix) : matrix :=
  tabulate (ny X - 2) (nx X - 2) (fun i j => entry X (i + 1) (j + 1)).

(** Modelled from the spec: [pygridgen/grid.py] is not among the sources.
    Spec 4.4: [rho[i,j] = average(X[i,j], X[i,j+1], X[i+1,j], X[i+1,j+1])],
    shape [(ny-1, nx-1)]. *)
Definition rho (X : matrix) : matrix :=
  tabulate (ny X - 1) (nx X - 1)
    (fun i j => average [entry X i j; entry X i (j + 1);
                         entry X (i + 1) j; entry X (i + 1) (j + 1)]).

(** Modelled from the spec: [pygridgen/grid.py] is not among the sources.
    Spec 4.4: [u[i,j] = average(rho[i,j], rho[i,j+1])], shape
    [(ny-1, nx-2)], for a primary array of shape [(ny, nx)] whose centers are
    [R]. *)
Definition u_of_rho (R : matrix) : matrix :=
  tabulate (ny R) (nx R - 1) (fun i j => average [entry R i j; entry R i (j + 1)]).

(** Modelled from the spec: [pygridgen/grid.py] is not among the sources.
    Spec 4.4: [v[i,j] = average(rho[i,j], rho[i+1,j])], shape
    [(ny-2, nx-1)]. *)
Definition v_of_rho (R : matrix) : matrix :=
  tabulate (ny R - 1) (nx R) (fun i j => average [entry R i j; entry R (i + 1) j]).

(** The face rule the reference tables of [tests/test_grid.py] obey
    ([midpoints_pass] below holds of all three dictionaries): [u[i,j]] is
    the midpoint of the primary nodes [X[i,j+1]] and [X[i+1,j+1]], shape
    [(ny-1, nx-2)]. *)
Definition u_of_vert (X : matrix) : matrix :=
  tabulate (ny X - 1) (nx X - 2)
    (fun i j => average [entry X i (j + 1); entry X (i + 1) (j + 1)]).

(** The same for [v]: the midpoint of [X[i+1,j]] and [X[i+1,j+1]], shape
    [(ny-2, nx-1)]. *)
Definition v_of_vert (X : matrix) : matrix :=
  tabulate (ny X - 2) (nx X - 1)
    (fun i j => average [entry X (i + 1) j; entry X (i + 1) (j + 1)]).

(** Modelled from the spec: [pygridgen/grid.py] is not among the sources.
    Spec 4.4: the four derived arrays are computed together from the current
    primary array [(X, Y)], identically for the two fields; the faces follow
    the rule the reference tables obey ([u_of_vert], [v_of_vert]). *)
Definition derive (X Y : matrix) : grid :=
  mk_grid X Y X Y (psi X) (psi Y) (rho X) (rho Y)
          (u_of_vert X) (u_of_vert Y) (v_of_vert X) (v_of_vert Y).

(** Spec 4.4's face rule as a property of three arrays: at every position
    of [U] and of [V], the entry is the mean of the two neighbouring entries
    of [R]. *)
Definition faces_average_rho (R U V : matrix) : Prop :=
  (forall i j a b, get R i j = Some a -> get R i (j + 1) = Some b ->
     exists c, get U i j = Some c /\ c == average [a; b]) /\
  (forall i j a b, get R i j = Some a -> get R (i + 1) j = Some b ->
     exists c, get V i j = Some c /\ c == average [a; b]).

(** [P] is [X] without its outer rows and columns: [P[i,j] = X[i+1,j+1]]
    for [i] in [[0, ny-3]] and [j] in [[0, nx-3]]. *)
Definition psi_rule (X P : matrix) (ny nx : nat) : Prop :=
  forall i j, (i + 3 <= ny)%nat -> (j + 3 <= nx)%nat ->
    exists v, get X (i + 1) (j + 1) = Some v /\ get P i j = Some v.

(** [R[i,j]] is the mean of the four nodes around it, for [i] in
    [[0, ny-2]] and [j] in [[0, nx-2]]. *)
Definition rho_rule (X R : matrix) (ny nx : nat) : Prop :=
  forall i j, (i + 2 <= ny)%nat -> (j + 2 <= nx)%nat ->
    exists a b c d,
      get X i j = Some a /\ get X i (j + 1) = Some b /\
      get X (i + 1) j = Some c /\ get X (i + 1) (j + 1) = Some d /\
      get R i j = Some (average [a; b; c; d]).

(** The two face tables of a dictionary agree, to the two decimals of
    [test_other_arrays], with the node midpoints of its primary tables. *)
Definition midpoints_pass (known : Knowns.knowns) : bool :=
  match Knowns.lookup "vert" known, Knowns.lookup "u" known, Knowns.lookup "v" known with
  | Some (X, Y), Some (Ux, Uy), Some (Vx, Vy) =>
      assert_array_almost_equal (u_of_vert X) Ux 2 &&
      assert_array_almost_equal (u_of_vert Y) Uy 2 &&
      assert_array_almost_equal (v_of_vert X) Vx 2 &&
      assert_array_almost_equal (v_of_vert Y) Vy 2
  | _, _, _ => false
  end.

(** The same comparison for the rule that averages the center table. *)
Definition rho_averages_pass (known : Knowns.knowns) : bool :=
  match Knowns.lookup "rho" known, Knowns.lookup "u" known, Knowns.lookup "v" known with
  | Some (Rx, Ry), Some (Ux, Uy), Some (Vx, Vy) =>
      assert_array_almost_equal (u_of_rho Rx) Ux 2 &&
      assert_array_almost_equal (u_of_rho Ry) Uy 2 &&
      assert_array_almost_equal (v_of_rho Rx) Vx 2 &&
      assert_array_almost_equal (v_of_rho Ry) Vy 2
  | _, _, _ => false
  end.

(** [U[i,j]] is the mean of the primary nodes [X[i,j+1]] and [X[i+1,j+1]],
    for [i] in [[0, ny-2]] and [j] in [[0, nx-3]]. *)
Definition u_rule (X U : matrix) (ny nx : nat) : Prop :=
  forall i j, (i + 2 <= ny)%nat -> (j + 3 <= nx)%nat ->
    exists a b,
      get X i (j + 1) = Some a /\ get X (i + 1) (j + 1) = Some b /\
      get U i j = Some (average [a; b]).

(** [V[i,j]] is the mean of the primary nodes [X[i+1,j]] and [X[i+1,j+1]],
    for [i] in [[0, ny-3]] and [j] in [[0, nx-2]]. *)
Definition v_rule (X V : matrix) (ny nx : nat) : Prop :=
  forall i j, (i + 3 <= ny)%nat -> (j + 2 <= nx)%nat ->
    exists a b,
      get X (i + 1) j = Some a /\ get X (i + 1) (j + 1) = Some b /\
      get V i j = Some (average [a; b]).

End StaggerDeriver.

(** ** The class body of [CSA]: finding [libcsa] *)

Module ClassBody.

Local Open Scope string_scope.

(** What the statements of the class body can raise: [OSError] (with its
    subclasses), [NameError], or one of the exceptions above. *)
Inductive class_exn : Type :=
| OSError (msg : string)
| NameError (msg : string)
| PyExn (e : exn).

(** How a statement ends: normally, by [break], or by an exception. *)
Inductive completion : Type :=
| Normal
| Break
| Raised (e : class_exn).

Definition ends_in_OSError (c : completion) : bool :=
  match c with
  | Raised (OSError _) => true
  | _ => false
  end.

(** [os.path.join(a, b)] of [posixpath], for two components. *)
Definition os_path_join (a b : string) : string :=
  if String.prefix "/" b then b
  else if String.eqb a "" then b
  else if String.eqb (String.substring (String.length a - 1) 1 a) "/" then a ++ b
  else a ++ "/" ++ b.

(** [_libcsa_paths], with [sys.prefix] as [prefix]. *)
Definition _libcsa_paths (prefix : string) : list (string * string) :=
  [ ("libcsa.so", os_path_join prefix "lib");
    ("libcsa", os_path_join prefix "lib");
    ("libcsa.so", "/usr/local/lib");
    ("libcsa", "/usr/local/lib") ].

Section Loader.

(** The loaded library, and [numpy.ctypeslib.load_library(name, path)],
    which returns it or raises. *)
Variable lib : Type.
Variable load_library : string -> string -> lib + class_exn.

(** Whether the library exports [csa_approximatepoints2]: ctypes resolves a
    function on attribute access and raises AttributeError when the symbol is
    missing. *)
Variable has_csa_approximatepoints2 : lib -> bool.

(** The one name of the class namespace the statements bind: [_csa],
    unbound at first. *)
Definition namespace : Type := option lib.

Definition stmt : Type := namespace -> completion * namespace.

(** [a; b]. *)
Definition seq_ (a b : stmt) : stmt :=
  fun ns =>
    match a ns with
    | (Normal, ns') => b ns'
    | end_ => end_
    end.

(** [try: body / except E: handler / else: orelse]: the [else] suite runs
    when [body] ends normally, and only then; a [break] in [body] leaves the
    whole statement. *)
Definition try_except_else (body : stmt) (catches : class_exn -> bool)
    (handler orelse : stmt) : stmt :=
  fun ns =>
    match body ns with
    | (Normal, ns') => orelse ns'
    | (Break, ns') => (Break, ns')
    | (Raised e, ns') => if catches e then handler ns' else (Raised e, ns')
    end.

(** [for item in items: body] (without an [else] of its own). *)
Fixpoint for_in {A : Type} (items : list A) (body : A -> stmt) : stmt :=
  fun ns =>
    match items with
    | [] => (Normal, ns)
    | item :: rest =>
        match body item ns with
        | (Normal, ns') => for_in rest body ns'
        | (Break, ns') => (Normal, ns')
        | (Raised e, ns') => (Raised e, ns')
        end
    end.

Definition pass : stmt := fun ns => (Normal, ns).
Definition break_ : stmt := fun ns => (Break, ns).
Definition raise_ (e : class_exn) : stmt := fun ns => (Raised e, ns).

(** [_csa = numpy.ctypeslib.load_library(name, path)]. *)
Definition assign_csa (name path : string) : stmt :=
  fun ns =>
    match load_library name path with
    | inl l => (Normal, Some l)
    | inr e => (Raised e, ns)
    end.

(** [except OSError]. *)
Definition is_OSError (e : class_exn) : bool :=
  match e with
  | OSError _ => true
  | _ => false
  end.

(** The body of the [for] loop: the [else] is the [try]'s. *)
Definition try_to_load (candidate : string * string) : stmt :=
  let (name, path) := candidate in
  try_except_else
    (seq_ (assign_csa name path) break_)
    is_OSError
    pass
    (raise_ (OSError "Failed to load the CSA library.")).

(** [for name, path in _libcsa_paths: ...]. *)
Definition load_loop (candidates : list (string * string)) : stmt :=
  for_in candidates try_to_load.

(** [_csa.csa_approximatepoints2.restype = ctypes.POINTER(ctypes.c_double)]:
    the name [_csa] is looked up, then the function. *)
Definition set_restype : stmt :=
  fun ns =>
    match ns with
    | None => (Raised (NameError "name '_csa' is not defined"), ns)
    | Some l =>
        if has_csa_approximatepoints2 l then (Normal, ns)
        else (Raised (PyExn (AttributeError "undefined symbol: csa_approximatepoints2")), ns)
    end.

(** The statements of the class body that deal with the library, run in a
    namespace where [_csa] is not bound. *)
Definition class_body (prefix : string) : completion * namespace :=
  seq_ (load_loop (_libcsa_paths prefix)) set_restype None.

End Loader.

End ClassBody.

(** ** The fixture [grid_and_knowns] and the shapes of [test_shape] *)

Module Fixtures.

Import Testing Knowns Grid StaggerDeriver.
Local Open Scope string_scope.

(** The ['name'] and ['known'] entries of the four fixture parameters. *)
Definition grid_and_knowns_params : list (string * knowns) :=
  [ ("basic", known_xy_basic.known);
    ("focused", known_xy_focused.known);
    ("updated", known_xy_basic.known);
    ("geographic", known_xy_with_proj.known) ].

(** [known_shapes] of [test_shape]. *)
Definition known_shapes : list (string * (nat * nat)) :=
  [ ("basic", (10, 5)%nat);
    ("focused", (9, 9)%nat);
    ("updated", (10, 5)%nat);
    ("geographic", (10, 4)%nat) ].

Fixpoint shape_of (name : string) (d : list (string * (nat * nat))) : option (nat * nat) :=
  match d with
  | [] => None
  | (k, v) :: d' => if String.eqb name k then Some v else shape_of name d'
  end.

(** [test_xy] and [test_other_arrays] for each of its five suffixes. *)
Definition array_tests (g : grid) (known : knowns) : bool :=
  test_xy g known && forallb (test_other_arrays g known) attr_suffixes.

Local Open Scope Q_scope.

(** Every entry of [P] is within [e] of the primary node one row and one
    column further in. *)
Definition psi_within (e : Q) (X P : matrix) : Prop :=
  forall i j p, get P i j = Some p ->
    exists a, get X (i + 1) (j + 1) = Some a /\ Qabs (p - a) < e.

(** Every entry of [R] is within [e] of the mean of the four primary nodes
    around it. *)
Definition rho_within (e : Q) (X R : matrix) : Prop :=
  forall i j r, get R i j = Some r ->
    exists a b c d,
      get X i j = Some a /\ get X i (j + 1) = Some b /\
      get X (i + 1) j = Some c /\ get X (i + 1) (j + 1) = Some d /\
      Qabs (r - average [a; b; c; d]) < e.

(** Every entry of [U] is within [e] of the midpoint of [X[i,j+1]] and
    [X[i+1,j+1]]. *)
Definition u_within (e : Q) (X U : matrix) : Prop :=
  forall i j u, get U i j = Some u ->
    exists a b,
      get X i (j + 1) = Some a /\ get X (i + 1) (j + 1) = Some b /\
      Qabs (u - average [a; b]) < e.

(** Every entry of [V] is within [e] of the midpoint of [X[i+1,j]] and
    [X[i+1,j+1]]. *)
Definition v_within (e : Q) (X V : matrix) : Prop :=
  forall i j v, get V i j = Some v ->
    exists a b,
      get X (i + 1) j = Some a /\ get X (i + 1) (j + 1) = Some b /\
      Qabs (v - average [a; b]) < e.

End Fixtures.

(** * Properties of [class CSA] *)

Module CSAFacts.

Import Numpy Ctypes CSA.

Lemma bind_Ok {A B : Type} (a : A) (f : A -> result B) : bind (Ok a) f = f a.
Proof. reflexivity. Qed.

Lemma c_double_array_exact (l : list float) :
  c_double_array (length l) l = Ok l.
Proof.
  unfold c_double_array.
  rewrite Nat.leb_refl, Nat.sub_diag.
  simpl. now rewrite app_nil_r.
Qed.

Lemma c_double_array_fits (n : nat) (l : list float) :
  (length l <= n)%nat ->
  c_double_array n l = Ok (l ++ repeat PrimFloat.zero (n - length l)).
Proof.
  intros H. unfold c_double_array.
  apply Nat.leb_le in H. now rewrite H.
Qed.

Lemma asarray_list_wf (l : list float) : wf (asarray (PyList l)).
Proof. unfold wf, size. simpl. lia. Qed.

(** On two ndarrays the constructor raises ValueError exactly when their
    sizes differ, and otherwise returns the object holding the two arrays,
    [zin] and [sigma] as passed and the four tunables. *)
Lemma init_on_arrays (a b : ndarray) (z : array_like) (sg : option sigma_t)
    (npmin npmax k nppc : Z) :
  __init__ (PyArray a) (PyArray b) z sg npmin npmax k nppc =
  if Nat.eqb (size a) (size b)
  then Ok (mk a b z sg k nppc npmin npmax)
  else Raise (ValueError "xin and yin must have the same number of elements").
Proof.
  unfold __init__. simpl.
  now destruct (Nat.eqb (size a) (size b)).
Qed.

(** A Python list as [xin] stops the constructor at [xin.size], whatever the
    lengths are. *)
Lemma init_on_list_xin (l : list float) (yin z : array_like) (sg : option sigma_t)
    (npmin npmax k nppc : Z) :
  __init__ (PyList l) yin z sg npmin npmax k nppc =
  Raise (AttributeError "'list' object has no attribute 'size'").
Proof. reflexivity. Qed.

(** C10: assigning to [zin] a value whose number of elements differs from
    [xin]'s raises ValueError and leaves the object, and so the stored
    [zin], as it was; a value of matching size becomes the stored [zin] and
    nothing else changes. *)
Theorem zin_setter_checks_size (self : t) (value : array_like) :
  (size (asarray value) <> size (xin self) ->
     is_ValueError (fst (set_zin value self)) = true /\
     snd (set_zin value self) = self /\
     zin (snd (set_zin value self)) = zin self) /\
  (size (asarray value) = size (xin self) ->
     fst (set_zin value self) = Ok tt /\
     zin (snd (set_zin value self)) = value /\
     snd (set_zin value self) = with_zin self value).
Proof.
  unfold set_zin. split; intros H.
  - apply Nat.eqb_neq in H. rewrite H. simpl. auto.
  - apply Nat.eqb_eq in H. rewrite H. simpl. auto.
Qed.

(** Assigning to [zin] touches no other attribute, whether the
    assignment goes through or raises. *)
Lemma zin_setter_keeps_the_rest (self : t) (value : array_like) :
  let self' := snd (set_zin value self) in
  xin self' = xin self /\ yin self' = yin self /\ sigma self' = sigma self /\
  k self' = k self /\ nppc self' = nppc self /\
  npmin self' = npmin self /\ npmax self' = npmax self.
Proof.
  unfold set_zin.
  destruct (negb (Nat.eqb (size (asarray value)) (size (xin self)))); simpl; auto 10.
Qed.

(** C6 (as amended): the constructor never looks at the tunables; whatever
    [npmin], [npmax], [k] and [nppc] are, it succeeds or fails exactly as
    with the defaults, and on success stores them as given. *)
Theorem init_stores_tunables_unchecked (xin yin zin : array_like)
    (sg : option sigma_t) (npmin npmax k nppc : Z) :
  __init__ xin yin zin sg npmin npmax k nppc =
  map_result
    (fun c => mk (CSA.xin c) (CSA.yin c) (_zin c) (sigma c) k nppc npmin npmax)
    (__init__ xin yin zin sg default_npmin default_npmax default_k default_nppc).
Proof.
  unfold __init__, map_result.
  destruct (attr_size xin) as [n|e]; simpl; [|reflexivity].
  destruct (attr_size yin) as [m|e]; simpl; [|reflexivity].
  now destruct (Nat.eqb n m).
Qed.

Section Call.

Variable csa_approximatepoints2 :
  Z -> list float -> list float -> list float -> option (list float) ->
  Z -> list float -> list float -> Z -> Z -> Z -> Z -> nat -> float.
Variable sigma_times_ones : sigma_t -> ndarray -> result (list float).

Local Abbreviation calculate_points := (_calculate_points csa_approximatepoints2 sigma_times_ones).
Local Abbreviation call := (__call__ csa_approximatepoints2 sigma_times_ones).

Lemma call_is_calculate_points (self : t) (xout yout : array_like) :
  call self xout yout = calculate_points self xout yout.
Proof. reflexivity. Qed.

(** [__call__] converts its output coordinates with [asarray] before
    anything else, so lists and arrays of the same content give the same
    outcome. *)
Lemma call_converts_its_arguments (self : t) (xout yout : array_like) :
  call self xout yout = call self (PyArray (asarray xout)) (PyArray (asarray yout)).
Proof. reflexivity. Qed.

(** X2: whatever [_calculate_points] returns has the shape of [xout], one
    value per output point, and a mask that is the NaN test of its data. *)
Lemma calculate_points_result (self : t) (xout yout : array_like) (m : masked_array) :
  calculate_points self xout yout = Ok m ->
  ma_shape m = shape (asarray xout) /\
  length (ma_data m) = size (asarray xout) /\
  ma_mask m = map PrimFloat.is_nan (ma_data m).
Proof.
  unfold _calculate_points.
  destruct (sigma_argument sigma_times_ones self) as [sg|]; simpl; [|discriminate].
  destruct (c_double_array _ (flat (xin self))) as [axin|]; simpl; [|discriminate].
  destruct (c_double_array _ (flat (yin self))) as [ayin|]; simpl; [|discriminate].
  destruct (attr_flat (_zin self)) as [zflat|]; simpl; [|discriminate].
  destruct (c_double_array _ zflat) as [azin|]; simpl; [|discriminate].
  destruct (c_double_array _ (flat (asarray xout))) as [axout|]; simpl; [|discriminate].
  destruct (c_double_array _ (flat (asarray yout))) as [ayout|]; simpl; [|discriminate].
  unfold set_shape.
  match goal with |- context [if ?c then _ else _] => destruct c end;
    simpl; [|discriminate].
  intros [= <-]. simpl. repeat split.
  unfold approximated. now rewrite length_map, length_seq.
Qed.

Lemma nth_error_map_range {A : Type} (g : nat -> A) (n i : nat) :
  (i < n)%nat -> nth_error (map g (seq 0 n)) i = Some (g i).
Proof.
  intros Hi. rewrite nth_error_map.
  rewrite nth_error_nth' with (d := 0%nat) by now rewrite length_seq.
  now rewrite seq_nth.
Qed.

(** C7: when the arrays handed to the C routine can be built ([ayin],
    [azin] and [ayout] from the stored [yin] and [zin] and from the given
    [yout], none longer than [xin], respectively [xout]), the call returns a
    masked array of [xout]'s shape with one entry per output point; entry
    [i] of its data is the value [zout[i]] that [csa_approximatepoints2]
    returned for these arrays, counts and tunables, and entry [i] of its
    mask says whether that value is NaN. *)
Theorem call_masks_exactly_the_nans (self : t) (xout yout : array_like)
    (sg : option (list float)) (ayin zflat azin ayout : list float) :
  wf (asarray xout) ->
  sigma_argument sigma_times_ones self = Ok sg ->
  c_double_array (size (xin self)) (flat (yin self)) = Ok ayin ->
  attr_flat (_zin self) = Ok zflat ->
  c_double_array (size (xin self)) zflat = Ok azin ->
  c_double_array (size (asarray xout)) (flat (asarray yout)) = Ok ayout ->
  let nout := size (asarray xout) in
  let zout :=
    csa_approximatepoints2
      (c_int (Z.of_nat (size (xin self)))) (flat (xin self)) ayin azin sg
      (c_int (Z.of_nat nout)) (flat (asarray xout)) ayout
      (c_int (npmin self)) (c_int (npmax self)) (c_int (k self)) (c_int (nppc self)) in
  exists m,
    call self xout yout = Ok m /\
    ma_shape m = shape (asarray xout) /\
    length (ma_data m) = nout /\
    length (ma_mask m) = nout /\
    forall i, (i < nout)%nat ->
      nth_error (ma_data m) i = Some (zout i) /\
      nth_error (ma_mask m) i = Some (PrimFloat.is_nan (zout i)).
Proof.
  intros Hwf Hsg Hy Hzf Hz Hyo nout zout.
  set (z := map zout (seq 0 nout)).
  assert (Hlen : length z = nout).
  { unfold z. now rewrite length_map, length_seq. }
  exists (masked_where (map PrimFloat.is_nan z) (mk_ndarray (shape (asarray xout)) z)).
  split.
  - rewrite call_is_calculate_points. unfold _calculate_points.
    rewrite Hsg, bind_Ok.
    unfold size at 1. rewrite c_double_array_exact, bind_Ok.
    fold (size (xin self)). rewrite Hy, bind_Ok, Hzf, bind_Ok, Hz, bind_Ok.
    unfold size at 1. rewrite c_double_array_exact, bind_Ok.
    fold (size (asarray xout)). rewrite Hyo, bind_Ok.
    unfold approximated. fold nout. fold zout. fold z. unfold set_shape.
    replace (size (asarray (PyList z))) with nout
      by (unfold size; simpl; now rewrite Hlen).
    red in Hwf. unfold nout. rewrite Hwf, Nat.eqb_refl. reflexivity.
  - simpl. repeat split; auto.
    + now rewrite length_map.
    + unfold z. now apply nth_error_map_range.
    + unfold z. rewrite nth_error_map, nth_error_map_range by assumption. reflexivity.
Qed.

End Call.

Import CSAExample.
Local Open Scope float_scope.

(** The call path run on the stand-in routine: the two output points with a
    negative [xout] come back masked, the other two carry their values, in
    [xout]'s 2 x 2 shape. *)
Example call_on_2x2 :
  __call__ half_plane_fit broadcast_1d csa3 (PyArray grid2x2_x) (PyArray grid2x2_y) =
  Ok (mk_masked [2%nat; 2%nat] [PrimFloat.nan; 0.75; 2; PrimFloat.nan]
                [true; false; false; true]).
Proof. vm_compute. reflexivity. Qed.

Lemma call_masks_exactly_the_nans_witness :
  let self := csa3 in
  let xout := PyArray grid2x2_x in
  let yout := PyArray grid2x2_y in
  let zout :=
    half_plane_fit
      (c_int 3) (flat (xin self)) [0; 1; 2] [0; 1; 2] None
      (c_int 4) (flat (asarray xout)) [0; 0.25; 1; 3]
      (c_int (npmin self)) (c_int (npmax self)) (c_int (k self)) (c_int (nppc self)) in
  (zout 0%nat = PrimFloat.nan /\ zout 1%nat = 0.75 /\ zout 2%nat = 2 /\
   zout 3%nat = PrimFloat.nan) /\
  exists m,
    __call__ half_plane_fit broadcast_1d self xout yout = Ok m /\
    ma_shape m = shape (asarray xout) /\
    length (ma_data m) = 4%nat /\
    length (ma_mask m) = 4%nat /\
    forall i, (i < 4)%nat ->
      nth_error (ma_data m) i = Some (zout i) /\
      nth_error (ma_mask m) i = Some (PrimFloat.is_nan (zout i)).
Proof.
  intros self xout yout zout.
  split; [repeat split|].
  apply (@call_masks_exactly_the_nans half_plane_fit broadcast_1d self xout yout
           None [0; 1; 2] [0; 1; 2] [0; 1; 2] [0; 0.25; 1; 3]); reflexivity.
Defined.

Lemma calculate_points_result_witness :
  let m := mk_masked [2%nat; 2%nat] [PrimFloat.nan; 0.75; 2; PrimFloat.nan]
                     [true; false; false; true] in
  ma_shape m = shape (asarray (PyArray grid2x2_x)) /\
  length (ma_data m) = size (asarray (PyArray grid2x2_x)) /\
  ma_mask m = map PrimFloat.is_nan (ma_data m).
Proof.
  intros m.
  apply (@calculate_points_result half_plane_fit broadcast_1d csa3
           (PyArray grid2x2_x) (PyArray grid2x2_y) m).
  reflexivity.
Defined.

Lemma zin_setter_checks_size_witness :
  (is_ValueError (fst (set_zin (PyList [5]) csa3)) = true /\
   snd (set_zin (PyList [5]) csa3) = csa3 /\
   zin (snd (set_zin (PyList [5]) csa3)) = zin csa3) /\
  (fst (set_zin (PyList [7; 8; 9]) csa3) = Ok tt /\
   zin (snd (set_zin (PyList [7; 8; 9]) csa3)) = PyList [7; 8; 9] /\
   snd (set_zin (PyList [7; 8; 9]) csa3) = with_zin csa3 (PyList [7; 8; 9])).
Proof.
  split.
  - apply (proj1 (zin_setter_checks_size csa3 (PyList [5]))).
    simpl. discriminate.
  - apply (proj2 (zin_setter_checks_size csa3 (PyList [7; 8; 9]))).
    reflexivity.
Defined.

(** C6 does not hold as stated: with [npmin = 0], [npmax = -1], [k = 0]
    and [nppc = -5], all four out of range, the constructor raises nothing
    and stores the four values. *)
Lemma init_accepts_out_of_range_tunables :
  __init__ (PyArray points3) (PyArray points3) (PyArray points3) None 0 (-1) 0 (-5) =
    Ok (mk points3 points3 (PyArray points3) None 0 (-5) 0 (-1)) /\
  is_ValueError
    (__init__ (PyArray points3) (PyArray points3) (PyArray points3) None 0 (-1) 0 (-5)) = false.
Proof. split; reflexivity. Qed.

(** C5 at its failing input: three coordinates and a single [zin] value.
    The constructor returns the object with the one-element [zin] stored;
    the setter refuses the same value on the same object; and the later call
    raises nothing either (the C array for [zin] is padded with zeros). *)
Lemma init_accepts_mismatched_zin :
  let z := PyArray (mk_ndarray [1%nat] [5]) in
  let self := mk points3 points3 z None default_k default_nppc default_npmin default_npmax in
  __init__ (PyArray points3) (PyArray points3) z None
           default_npmin default_npmax default_k default_nppc = Ok self /\
  size (asarray (zin self)) = 1%nat /\ size (xin self) = 3%nat /\
  is_ValueError (fst (set_zin z self)) = true /\
  is_Ok (__call__ half_plane_fit broadcast_1d self (PyArray grid2x2_x) (PyArray grid2x2_y)) = true.
Proof. repeat split. Qed.

(** On plain lists the size test is never reached: [xin.size] raises
    AttributeError even for lists of different lengths. *)
Lemma init_on_lists_is_no_ValueError :
  __init__ (PyList [0; 1; 2]) (PyList [0; 1]) (PyList [5; 6; 7]) None
           default_npmin default_npmax default_k default_nppc =
  Raise (AttributeError "'list' object has no attribute 'size'").
Proof. reflexivity. Qed.

End CSAFacts.

(** * Properties of the staggered arrays *)

Module StaggerFacts.

Import Testing Knowns Grid StaggerDeriver.
Local Open Scope Q_scope.

(** *** Arrays given by a rule *)

Lemma tabulate_length (rows cols : nat) (f : nat -> nat -> Q) :
  length (tabulate rows cols f) = rows.
Proof. unfold tabulate. now rewrite length_map, length_seq. Qed.

Lemma tabulate_shape (rows cols : nat) (f : nat -> nat -> Q) :
  has_shape (tabulate rows cols f) rows cols.
Proof.
  split; [apply tabulate_length|].
  unfold tabulate. apply Forall_forall. intros row Hin.
  apply in_map_iff in Hin as (i & <- & _).
  now rewrite length_map, length_seq.
Qed.

Lemma nth_error_map_seq {A : Type} (g : nat -> A) (n i : nat) :
  (i < n)%nat -> nth_error (map g (seq 0 n)) i = Some (g i).
Proof.
  intros Hi. rewrite nth_error_map.
  replace (nth_error (seq 0 n) i) with (Some i); [reflexivity|].
  symmetry. rewrite nth_error_nth' with (d := 0%nat) by now rewrite length_seq.
  now rewrite seq_nth.
Qed.

Lemma get_tabulate (rows cols : nat) (f : nat -> nat -> Q) (i j : nat) :
  (i < rows)%nat -> (j < cols)%nat ->
  get (tabulate rows cols f) i j = Some (f i j).
Proof.
  intros Hi Hj. unfold get, tabulate.
  rewrite nth_error_map_seq by assumption.
  now rewrite nth_error_map_seq.
Qed.

Lemma get_in_shape (X : matrix) (rows cols i j : nat) :
  has_shape X rows cols -> (i < rows)%nat -> (j < cols)%nat ->
  exists v, get X i j = Some v /\ entry X i j = v.
Proof.
  intros [Hr Hc] Hi Hj. unfold get, entry.
  destruct (nth_error X i) as [row|] eqn:E.
  - assert (Hlen : length row = cols).
    { rewrite Forall_forall in Hc. apply Hc. eapply nth_error_In; eauto. }
    rewrite (nth_error_nth _ _ [] E).
    exists (nth j row 0). split; [|reflexivity].
    apply nth_error_nth'. lia.
  - apply nth_error_None in E. lia.
Qed.

Lemma shape_ny (X : matrix) (rows cols : nat) :
  has_shape X rows cols -> ny X = rows.
Proof. now intros [H _]. Qed.

Lemma shape_nx (X : matrix) (rows cols : nat) :
  has_shape X rows cols -> (0 < rows)%nat -> nx X = cols.
Proof.
  intros [Hr Hc] Hpos. unfold nx.
  destruct X as [|row X]; simpl in *; [lia|].
  now inversion Hc.
Qed.

(** *** The rules of [psi] and [rho] *)

Lemma psi_obeys_rule (X : matrix) (rows cols : nat) :
  has_shape X rows cols -> psi_rule X (psi X) rows cols.
Proof.
  intros HX i j Hi Hj.
  destruct (get_in_shape (i := i + 1) (j := j + 1) HX) as (v & Hv & Hentry); [lia|lia|].
  exists v. split; [assumption|].
  unfold psi. rewrite (shape_ny HX), (shape_nx HX) by lia.
  rewrite get_tabulate by lia. now rewrite Hentry.
Qed.

Lemma rho_obeys_rule (X : matrix) (rows cols : nat) :
  has_shape X rows cols -> rho_rule X (rho X) rows cols.
Proof.
  intros HX i j Hi Hj.
  destruct (get_in_shape (i := i) (j := j) HX) as (a & Ha & Ea); [lia|lia|].
  destruct (get_in_shape (i := i) (j := j + 1) HX) as (b & Hb & Eb); [lia|lia|].
  destruct (get_in_shape (i := i + 1) (j := j) HX) as (c & Hc & Ec); [lia|lia|].
  destruct (get_in_shape (i := i + 1) (j := j + 1) HX) as (d & Hd & Ed); [lia|lia|].
  exists a, b, c, d. repeat (split; [assumption|]).
  unfold rho. rewrite (shape_ny HX), (shape_nx HX) by lia.
  rewrite get_tabulate by lia. now rewrite Ea, Eb, Ec, Ed.
Qed.

(** C2: for a solved primary array [(X, Y)] of shape [(ny, nx)], the corner
    arrays are the primary arrays without their perimeter and the center
    arrays are the four-node means, for the x and the y field alike. *)
Theorem psi_strips_perimeter_rho_averages_nodes (X Y : matrix) (ny nx : nat) :
  has_shape X ny nx -> has_shape Y ny nx ->
  let g := derive X Y in
  psi_rule (x g) (x_psi g) ny nx /\ psi_rule (y g) (y_psi g) ny nx /\
  rho_rule (x g) (x_rho g) ny nx /\ rho_rule (y g) (y_rho g) ny nx.
Proof.
  intros HX HY g. unfold g, derive. simpl.
  auto using psi_obeys_rule, rho_obeys_rule.
Qed.

(** *** Shapes *)

Lemma tabulate_shape_of (X : matrix) (rows cols dr dc : nat) (f : nat -> nat -> Q) :
  has_shape X rows cols ->
  has_shape (tabulate (ny X - dr) (nx X - dc) f) (rows - dr) (cols - dc).
Proof.
  intros HX. rewrite (shape_ny HX).
  destruct rows as [|r].
  - simpl. split; [apply tabulate_length|]. unfold tabulate. simpl. constructor.
  - rewrite (shape_nx HX) by lia. apply tabulate_shape.
Qed.

Lemma u_of_rho_shape (X : matrix) (rows cols : nat) :
  has_shape X rows cols ->
  has_shape (u_of_rho (rho X)) (rows - 1) (cols - 2) /\
  has_shape (v_of_rho (rho X)) (rows - 2) (cols - 1).
Proof.
  intros HX.
  assert (HR : has_shape (rho X) (rows - 1) (cols - 1))
    by (unfold rho; now apply tabulate_shape_of).
  unfold u_of_rho, v_of_rho. split.
  - replace (ny (rho X)) with (ny (rho X) - 0)%nat by lia.
    replace (rows - 1)%nat with (rows - 1 - 0)%nat by lia.
    replace (cols - 2)%nat with (cols - 1 - 1)%nat by lia.
    now apply tabulate_shape_of.
  - replace (nx (rho X)) with (nx (rho X) - 0)%nat by lia.
    replace (cols - 1)%nat with (cols - 1 - 0)%nat by lia.
    replace (rows - 2)%nat with (rows - 1 - 1)%nat by lia.
    now apply tabulate_shape_of.
Qed.

(** C3: for a solved primary array of shape [(ny, nx)] the derived arrays
    have the shapes psi [(ny-2, nx-2)], rho [(ny-1, nx-1)], u [(ny-1, nx-2)]
    and v [(ny-2, nx-1)], in both fields. *)
Theorem derived_shapes (X Y : matrix) (ny nx : nat) :
  has_shape X ny nx -> has_shape Y ny nx ->
  let g := derive X Y in
  (has_shape (x_psi g) (ny - 2) (nx - 2) /\ has_shape (y_psi g) (ny - 2) (nx - 2)) /\
  (has_shape (x_rho g) (ny - 1) (nx - 1) /\ has_shape (y_rho g) (ny - 1) (nx - 1)) /\
  (has_shape (x_u g) (ny - 1) (nx - 2) /\ has_shape (y_u g) (ny - 1) (nx - 2)) /\
  (has_shape (x_v g) (ny - 2) (nx - 1) /\ has_shape (y_v g) (ny - 2) (nx - 1)).
Proof.
  intros HX HY g. unfold g, derive. simpl.
  unfold psi, rho, u_of_vert, v_of_vert.
  repeat match goal with |- _ /\ _ => split end; now apply tabulate_shape_of.
Qed.

Lemma psi_strips_perimeter_rho_averages_nodes_witness :
  let X := known_xy_basic.known_x in
  let Y := known_xy_basic.known_y in
  let g := derive X Y in
  psi_rule (x g) (x_psi g) 10 5 /\ psi_rule (y g) (y_psi g) 10 5 /\
  rho_rule (x g) (x_rho g) 10 5 /\ rho_rule (y g) (y_rho g) 10 5.
Proof.
  apply (psi_strips_perimeter_rho_averages_nodes
           (X := known_xy_basic.known_x) (Y := known_xy_basic.known_y) (ny := 10) (nx := 5));
    (split; [reflexivity | repeat constructor]).
Defined.

Lemma derived_shapes_witness :
  let g := derive known_xy_with_proj.known_x known_xy_with_proj.known_y in
  (has_shape (x_psi g) 8 2 /\ has_shape (y_psi g) 8 2) /\
  (has_shape (x_rho g) 9 3 /\ has_shape (y_rho g) 9 3) /\
  (has_shape (x_u g) 9 2 /\ has_shape (y_u g) 9 2) /\
  (has_shape (x_v g) 8 3 /\ has_shape (y_v g) 8 3).
Proof.
  apply (derived_shapes
           (X := known_xy_with_proj.known_x) (Y := known_xy_with_proj.known_y)
           (ny := 10) (nx := 4));
    (split; [reflexivity | repeat constructor]).
Defined.

(** *** The rules against the reference tables *)

(** The grid whose arrays are the tables passes [test_xy] and every
    [test_other_arrays], for each of the three dictionaries the fixture
    [grid_and_knowns] compares with. *)
Lemma reference_grids_pass_the_array_tests :
  forallb
    (fun known =>
       forallb (test_other_arrays (reference_grid known) known) attr_suffixes
       && test_xy (reference_grid known) known)
    [known_xy_basic.known; known_xy_focused.known; known_xy_with_proj.known] = true.
Proof. vm_compute. reflexivity. Qed.

(** The corner and center tables are what [psi] and [rho] give on the
    primary tables, the corners exactly and the centers to the tests' two
    decimals; so are the faces computed as node midpoints: the derived grid
    of each pair of primary tables passes [test_xy] and every
    [test_other_arrays]. *)
Lemma derived_grid_passes_the_array_tests :
  forallb
    (fun known =>
       match lookup "vert" known with
       | Some (X, Y) => forallb (test_other_arrays (derive X Y) known) attr_suffixes
                        && test_xy (derive X Y) known
       | None => false
       end)
    [known_xy_basic.known; known_xy_focused.known; known_xy_with_proj.known] = true.
Proof. vm_compute. reflexivity. Qed.

(** In each of the three reference dictionaries the corner tables are
    exactly the primary tables without their outer rows and columns. *)
Lemma psi_tables_are_exact :
  psi known_xy_basic.known_x = known_xy_basic.known_x_psi /\
  psi known_xy_basic.known_y = known_xy_basic.known_y_psi /\
  psi known_xy_focused.known_x = known_xy_focused.known_x_psi /\
  psi known_xy_focused.known_y = known_xy_focused.known_y_psi /\
  psi known_xy_with_proj.known_x = known_xy_with_proj.known_x_psi /\
  psi known_xy_with_proj.known_y = known_xy_with_proj.known_y_psi.
Proof. repeat split. Qed.

(** In each of the three solved reference grids of the test suite the face
    tables are, to the tests' two decimals, the midpoints of adjacent
    primary nodes, [u[i,j]] of [X[i,j+1]] and [X[i+1,j+1]], [v[i,j]] of
    [X[i+1,j]] and [X[i+1,j+1]], for the x and the y field alike. *)
Lemma faces_are_node_midpoints :
  midpoints_pass known_xy_basic.known = true /\
  midpoints_pass known_xy_focused.known = true /\
  midpoints_pass known_xy_with_proj.known = true.
Proof. repeat split; vm_compute; reflexivity. Qed.

(** *** The rule of the faces *)

Lemma u_obeys_rule (X : matrix) (rows cols : nat) :
  has_shape X rows cols -> u_rule X (u_of_vert X) rows cols.
Proof.
  intros HX i j Hi Hj.
  destruct (get_in_shape (i := i) (j := j + 1) HX) as (a & Ha & Ea); [lia|lia|].
  destruct (get_in_shape (i := i + 1) (j := j + 1) HX) as (b & Hb & Eb); [lia|lia|].
  exists a, b. repeat (split; [assumption|]).
  unfold u_of_vert. rewrite (shape_ny HX), (shape_nx HX) by lia.
  rewrite get_tabulate by lia. now rewrite Ea, Eb.
Qed.

Lemma v_obeys_rule (X : matrix) (rows cols : nat) :
  has_shape X rows cols -> v_rule X (v_of_vert X) rows cols.
Proof.
  intros HX i j Hi Hj.
  destruct (get_in_shape (i := i + 1) (j := j) HX) as (a & Ha & Ea); [lia|lia|].
  destruct (get_in_shape (i := i + 1) (j := j + 1) HX) as (b & Hb & Eb); [lia|lia|].
  exists a, b. repeat (split; [assumption|]).
  unfold v_of_vert. rewrite (shape_ny HX), (shape_nx HX) by lia.
  rewrite get_tabulate by lia. now rewrite Ea, Eb.
Qed.

(** C1 (as amended): for a solved primary array [(X, Y)] of shape
    [(ny, nx)], the face arrays are means of adjacent primary nodes:
    [u[i,j] = average(X[i,j+1], X[i+1,j+1])] for every [i] in [[0, ny-2]]
    and [j] in [[0, nx-3]], and [v[i,j] = average(X[i+1,j], X[i+1,j+1])] for
    every [i] in [[0, ny-3]] and [j] in [[0, nx-2]], for the x and the y
    field alike. *)
Theorem faces_average_adjacent_nodes (X Y : matrix) (ny nx : nat) :
  has_shape X ny nx -> has_shape Y ny nx ->
  let g := derive X Y in
  u_rule (x g) (x_u g) ny nx /\ u_rule (y g) (y_u g) ny nx /\
  v_rule (x g) (x_v g) ny nx /\ v_rule (y g) (y_v g) ny nx.
Proof.
  intros HX HY g. unfold g, derive. simpl.
  auto using u_obeys_rule, v_obeys_rule.
Qed.

(** On the basic primary tables: the rule gives [u[0,0]] as the mean of
    [X[0,1] = 1.12] and [X[1,1] = 1.03], where the table's 1.08 lies. *)
Lemma faces_average_adjacent_nodes_witness :
  let X := known_xy_basic.known_x in
  let Y := known_xy_basic.known_y in
  let g := derive X Y in
  (get (x_u g) 0 0 = Some (average [1.12; 1.03]) /\ average [1.12; 1.03] == 1.075) /\
  u_rule (x g) (x_u g) 10 5 /\ u_rule (y g) (y_u g) 10 5 /\
  v_rule (x g) (x_v g) 10 5 /\ v_rule (y g) (y_v g) 10 5.
Proof.
  split; [split; reflexivity|].
  apply (faces_average_adjacent_nodes
           (X := known_xy_basic.known_x) (Y := known_xy_basic.known_y) (ny := 10) (nx := 5));
    (split; [reflexivity | repeat constructor]).
Defined.

(** *** What passing an array test says entry by entry *)

Lemma all2_nth_error {A B : Type} (p : A -> B -> bool) (l : list A) (m : list B) (i : nat) (b : B) :
  all2 p l m = true -> nth_error m i = Some b ->
  exists a, nth_error l i = Some a /\ p a b = true.
Proof.
  revert m i. induction l as [|a l IH]; intros [|b' m] i H Hb; simpl in H; try discriminate.
  - destruct i; discriminate.
  - apply andb_true_iff in H as [Hab Hrest].
    destruct i as [|i]; simpl in *.
    + injection Hb as <-. now exists a.
    + now apply IH with (m := m).
Qed.

Lemma Qltb_lt (a b : Q) : Qltb a b = true -> a < b.
Proof.
  unfold Qltb. intros H. apply negb_true_iff in H.
  apply Qnot_le_lt. intros Hle. apply Qle_bool_iff in Hle. congruence.
Qed.

Lemma almost_equal_entry (actual desired : matrix) (decimal i j : nat) (d : Q) :
  assert_array_almost_equal actual desired decimal = true ->
  get desired i j = Some d ->
  exists a, get actual i j = Some a /\ Qabs (a - d) < tolerance decimal.
Proof.
  unfold assert_array_almost_equal, get. intros H Hd.
  destruct (nth_error desired i) as [drow|] eqn:Ed; [|discriminate].
  destruct (all2_nth_error _ _ _ _ H Ed) as (arow & Ea & Hrow).
  destruct (all2_nth_error _ _ _ _ Hrow Hd) as (a & Haj & Hlt).
  exists a. rewrite Ea. split; [assumption|]. now apply Qltb_lt.
Qed.

Lemma test_other_arrays_passes (g : grid) (known : knowns) (suffix : string)
    (gx gy kx ky : matrix) :
  getattr g ("x_" ++ suffix) = Some gx -> getattr g ("y_" ++ suffix) = Some gy ->
  lookup suffix known = Some (kx, ky) ->
  test_other_arrays g known suffix = true ->
  assert_array_almost_equal gx kx 2 = true /\ assert_array_almost_equal gy ky 2 = true.
Proof.
  intros Hx Hy Hk. unfold test_other_arrays. rewrite Hx, Hy, Hk.
  apply andb_true_iff.
Qed.

Lemma tolerance_2 : tolerance 2 == 0.015.
Proof. reflexivity. Qed.

Lemma average_pair (a b : Q) : average [a; b] == (a + b) * 0.5.
Proof.
  unfold average, Qdiv. simpl.
  change (/ inject_Z 2) with (1 # 2). setoid_replace 0.5 with (1 # 2) by reflexivity.
  ring.
Qed.

(** No grid that passes [test_other_arrays] for ['rho'] and ['u'] against
    the basic tables has faces that average its centers: the tables put
    [u[0,0]] at 1.08 and the mean of [rho[0,0]] and [rho[0,1]] at 1.18, 0.10
    apart where the tolerances of the two tests leave room for 0.03. *)
Lemma tested_grid_does_not_average_rho (g : grid) :
  test_other_arrays g known_xy_basic.known "rho" = true ->
  test_other_arrays g known_xy_basic.known "u" = true ->
  ~ faces_average_rho (x_rho g) (x_u g) (x_v g).
Proof.
  intros Hrho Hu [HU _].
  apply (@test_other_arrays_passes g known_xy_basic.known "rho" (x_rho g) (y_rho g)
           known_xy_basic.known_x_rho known_xy_basic.known_y_rho eq_refl eq_refl eq_refl)
    in Hrho as [Hrho _].
  apply (@test_other_arrays_passes g known_xy_basic.known "u" (x_u g) (y_u g)
           known_xy_basic.known_x_u known_xy_basic.known_y_u eq_refl eq_refl eq_refl)
    in Hu as [Hu _].
  destruct (@almost_equal_entry _ _ _ 0 0 _ Hrho eq_refl) as (a & Ha & Ba).
  destruct (@almost_equal_entry _ _ _ 0 1 _ Hrho eq_refl) as (b & Hb & Bb).
  destruct (@almost_equal_entry _ _ _ 0 0 _ Hu eq_refl) as (c & Hc & Bc).
  destruct (HU 0%nat 0%nat a b Ha Hb) as (c' & Hc' & Hmean).
  rewrite Hc in Hc'. injection Hc' as <-.
  apply Qabs_Qlt_condition in Ba, Bb, Bc.
  rewrite average_pair in Hmean.
  rewrite tolerance_2 in Ba, Bb, Bc.
  lra.
Qed.

(** C1 does not hold as stated.  The grid whose arrays are the basic
    reference tables passes [test_xy] and every [test_other_arrays]; its
    [u[0,0]] is 1.08 where the mean of [rho[0,0] = 1.03] and
    [rho[0,1] = 1.33] is 1.18, so the face tables fail the comparison with
    the averaged center tables and the grid does not satisfy the rho-average
    rule; nor does any other grid that passes the tests for ['rho'] and
    ['u']. *)
Lemma faces_do_not_average_rho :
  let known := known_xy_basic.known in
  let g := reference_grid known in
  test_xy g known = true /\
  forallb (test_other_arrays g known) attr_suffixes = true /\
  get (x_rho g) 0 0 = Some 1.03 /\
  get (x_rho g) 0 1 = Some 1.33 /\
  get (x_u g) 0 0 = Some 1.08 /\
  average [1.03; 1.33] == 1.18 /\
  rho_averages_pass known = false /\
  ~ faces_average_rho (x_rho g) (x_u g) (x_v g) /\
  (forall g' : grid,
     test_other_arrays g' known "rho" = true ->
     test_other_arrays g' known "u" = true ->
     ~ faces_average_rho (x_rho g') (x_u g') (x_v g')).
Proof.
  intros known g.
  repeat match goal with |- _ /\ _ => split end; try reflexivity.
  - now apply tested_grid_does_not_average_rho.
  - exact tested_grid_does_not_average_rho.
Qed.

(** The rho-average rule applied to the centers derived from the primary
    tables misses the face tables as well, in all three dictionaries. *)
Lemma derived_rho_averages_fail_the_tests :
  map (fun known =>
         match lookup "vert" known, lookup "u" known, lookup "v" known with
         | Some (X, _), Some (Ux, _), Some (Vx, _) =>
             (assert_array_almost_equal (u_of_rho (rho X)) Ux 2,
              assert_array_almost_equal (v_of_rho (rho X)) Vx 2)
         | _, _, _ => (true, true)
         end)
      [known_xy_basic.known; known_xy_focused.known; known_xy_with_proj.known] =
  [(false, false); (false, false); (false, false)].
Proof. vm_compute. reflexivity. Qed.

End StaggerFacts.

(** * Properties of the library search in the class body *)

Module LoaderFacts.

Import ClassBody.
Local Open Scope string_scope.

Section Search.

Variable lib : Type.
Variable load_library : string -> string -> lib + class_exn.
Variable has_csa_approximatepoints2 : lib -> bool.

Local Abbreviation search := (load_loop load_library).

(** One candidate: the library if it loads, nothing on OSError, any other
    exception passed on.  The [else] suite is not among the outcomes. *)
Lemma try_to_load_outcome (name path : string) (ns : namespace lib) :
  try_to_load load_library (name, path) ns =
  match load_library name path with
  | inl l => (Break, Some l)
  | inr e => if is_OSError e then (Normal, ns) else (Raised e, ns)
  end.
Proof.
  unfold try_to_load, try_except_else, seq_, assign_csa, break_, pass.
  destruct (load_library name path) as [l|e]; reflexivity.
Qed.

(** The loop never ends by OSError, whatever the loader does. *)
Lemma search_outcome (candidates : list (string * string)) (ns : namespace lib) :
  fst (search candidates ns) = Normal \/
  exists e, fst (search candidates ns) = Raised e /\ is_OSError e = false.
Proof.
  revert ns. induction candidates as [|[name path] rest IH]; intros ns.
  - now left.
  - unfold load_loop in *. cbn [for_in]. rewrite try_to_load_outcome.
    destruct (load_library name path) as [l|e].
    + now left.
    + destruct (is_OSError e) eqn:E.
      * apply IH.
      * right. now exists e.
Qed.

Lemma search_skips_failures (before rest : list (string * string)) (ns : namespace lib) :
  (forall name path, In (name, path) before ->
     exists msg, load_library name path = inr (OSError msg)) ->
  search (before ++ rest) ns = search rest ns.
Proof.
  induction before as [|[name path] before IH]; intros H; [reflexivity|].
  unfold load_loop in *. cbn [for_in app]. rewrite try_to_load_outcome.
  destruct (H name path (or_introl eq_refl)) as [msg ->]. simpl.
  apply IH. intros n p Hin. apply H. now right.
Qed.

(** X5: the class body never ends in OSError: an OSError of the loader is
    swallowed by the [except] clause, and the [raise OSError('Failed to load
    the CSA library.')] of the [else] suite is never reached, whatever the
    loader does on the four candidates. *)
Theorem class_body_never_raises_OSError (prefix : string) :
  ends_in_OSError (fst (class_body load_library has_csa_approximatepoints2 prefix)) = false.
Proof.
  unfold class_body, seq_.
  destruct (search_outcome (_libcsa_paths prefix) None) as [H|(e & H & He)];
    destruct (search (_libcsa_paths prefix) None) as [c ns]; simpl in H; subst c.
  - unfold set_restype. destruct ns as [l|]; [|reflexivity].
    now destruct (has_csa_approximatepoints2 l).
  - simpl. now destruct e.
Qed.

(** X6: when no candidate can be loaded (each attempt raises OSError), the
    class body ends in NameError for [_csa], with [_csa] still unbound. *)
Theorem failed_search_ends_in_NameError (prefix : string) :
  (forall name path, In (name, path) (_libcsa_paths prefix) ->
     exists msg, load_library name path = inr (OSError msg)) ->
  class_body load_library has_csa_approximatepoints2 prefix =
  (Raised (NameError "name '_csa' is not defined"), None).
Proof.
  intros H. unfold class_body, seq_.
  rewrite <- (app_nil_r (_libcsa_paths prefix)).
  rewrite (search_skips_failures _ [] None H).
  reflexivity.
Qed.

(** X7: the search is decided by the first candidate that does not raise
    OSError: if it loads, [_csa] is that library, and if it raises something
    else, that exception ends the loop; the candidates after it play no
    part. *)
Theorem first_candidate_decides (before after : list (string * string))
    (name path : string) (ns : namespace lib) :
  (forall n p, In (n, p) before -> exists msg, load_library n p = inr (OSError msg)) ->
  (forall l, load_library name path = inl l ->
     search (before ++ (name, path) :: after) ns = (Normal, Some l)) /\
  (forall e, load_library name path = inr e -> is_OSError e = false ->
     search (before ++ (name, path) :: after) ns = (Raised e, ns)).
Proof.
  intros H. split.
  - intros l Hl. rewrite (search_skips_failures _ _ ns H).
    unfold load_loop. cbn [for_in]. rewrite try_to_load_outcome, Hl. reflexivity.
  - intros e He Hno. rewrite (search_skips_failures _ _ ns H).
    unfold load_loop. cbn [for_in]. rewrite try_to_load_outcome, He, Hno. reflexivity.
Qed.

End Search.

(** A loader that finds nothing. *)
Lemma failed_search_ends_in_NameError_witness :
  class_body (lib := unit) (fun _ _ => inr (OSError "no file with expected extension"))
             (fun _ => true) "/usr" =
  (Raised (NameError "name '_csa' is not defined"), None).
Proof.
  apply (@failed_search_ends_in_NameError unit
           (fun _ _ => inr (OSError "no file with expected extension")) (fun _ => true) "/usr").
  intros name path _. now exists "no file with expected extension".
Defined.

(** A loader that finds [libcsa.so] in [/usr/local/lib] only: the two
    candidates under [sys.prefix] are passed over, the fourth is not
    tried. *)
Lemma first_candidate_decides_witness :
  let load := fun name path : string =>
    if String.eqb path "/usr/local/lib" && String.eqb name "libcsa.so"
    then inl 7%nat
    else if String.eqb path "/usr/lib" then inr (OSError "no file with expected extension")
    else inr (PyExn (TypeError "not reached")) in
  (forall l, load "libcsa.so" "/usr/local/lib" = inl l ->
     load_loop load (_libcsa_paths "/usr") None = (Normal, Some l)) /\
  (forall e, load "libcsa.so" "/usr/local/lib" = inr e -> is_OSError e = false ->
     load_loop load (_libcsa_paths "/usr") None = (Raised e, None)).
Proof.
  intros load.
  apply (@first_candidate_decides nat load
           [("libcsa.so", "/usr/lib"); ("libcsa", "/usr/lib")]
           [("libcsa", "/usr/local/lib")] "libcsa.so" "/usr/local/lib" None).
  intros n p [[= <- <-]|[[= <- <-]|[]]]; now exists "no file with expected extension".
Defined.

End LoaderFacts.

(** * Using a [CSA] object: construction, assignments, calls *)

Module CSAUse.

Import Numpy Ctypes CSA.

Lemma c_double_array_has_length (n : nat) (l a : list float) :
  c_double_array n l = Ok a -> length a = n.
Proof.
  unfold c_double_array.
  destruct (Nat.leb (length l) n) eqn:E; [|discriminate].
  intros [= <-]. apply Nat.leb_le in E.
  rewrite length_app, repeat_length. lia.
Qed.

Lemma c_double_array_of_length (n : nat) (l : list float) :
  length l = n -> c_double_array n l = Ok l.
Proof. intros <-. apply CSAFacts.c_double_array_exact. Qed.

Lemma c_double_array_too_long (n : nat) (l : list float) :
  (n < length l)%nat -> c_double_array n l = Raise (IndexError "invalid index").
Proof.
  intros H. unfold c_double_array.
  apply Nat.leb_gt in H. now rewrite H.
Qed.

Lemma last_cons {A : Type} (a d : A) (l : list A) : last (a :: l) d = last l a.
Proof.
  revert a d. induction l as [|b l IH]; intros a d; [reflexivity|].
  change (last (a :: b :: l) d) with (last (b :: l) d).
  now rewrite !IH.
Qed.

(** X1: construction succeeds exactly when [xin] and [yin] are both
    ndarrays of the same size (a Python list for either is refused, as is a
    size mismatch); the object then holds the two arrays, and [zin], [sigma]
    and the tunables as passed. *)
Theorem construction_needs_two_arrays (xin yin zin : array_like)
    (sg : option sigma_t) (npmin npmax k nppc : Z) (self : t) :
  __init__ xin yin zin sg npmin npmax k nppc = Ok self <->
  exists a b, xin = PyArray a /\ yin = PyArray b /\ size a = size b /\
              self = mk a b zin sg k nppc npmin npmax.
Proof.
  unfold __init__. split.
  - destruct xin as [lx|a]; simpl; [discriminate|].
    destruct yin as [ly|b]; simpl; [discriminate|].
    destruct (Nat.eqb (size a) (size b)) eqn:E; simpl; [|discriminate].
    intros [= <-]. apply Nat.eqb_eq in E. now exists a, b.
  - intros (a & b & -> & -> & E & ->). simpl.
    apply Nat.eqb_eq in E. now rewrite E.
Qed.

Lemma zin_after_set_zin (value : array_like) (self : t) :
  zin (snd (set_zin value self)) =
  if Nat.eqb (size (asarray value)) (size (xin self)) then value else zin self.
Proof.
  unfold set_zin.
  now destruct (Nat.eqb (size (asarray value)) (size (xin self))).
Qed.

(** The object after a series of assignments to [zin], each of which may
    have raised. *)
Lemma assignments_final (values : list array_like) (self : t) :
  let final := fold_left (fun s v => snd (set_zin v s)) values self in
  (xin final = xin self /\ yin final = yin self /\ sigma final = sigma self /\
   k final = k self /\ nppc final = nppc self /\
   npmin final = npmin self /\ npmax final = npmax self) /\
  zin final =
    last (filter (fun v => Nat.eqb (size (asarray v)) (size (xin self))) values) (zin self).
Proof.
  revert self. induction values as [|v values IH]; intros self.
  - simpl. repeat split.
  - cbn [fold_left filter].
    destruct (IH (snd (set_zin v self))) as [(Hx & Hy & Hs & Hk & Hc & Hmin & Hmax) Hz].
    destruct (CSAFacts.zin_setter_keeps_the_rest self v)
      as (Sx & Sy & Ss & Sk & Sc & Smin & Smax).
    cbv zeta. split.
    + rewrite Hx, Hy, Hs, Hk, Hc, Hmin, Hmax. repeat split; assumption.
    + rewrite Hz, Sx, zin_after_set_zin.
      destruct (Nat.eqb (size (asarray v)) (size (xin self))); [|reflexivity].
      now rewrite last_cons.
Qed.

(** X3: after any series of assignments to [zin], failed ones included,
    [xin], [yin], [sigma] and the tunables are unchanged and the stored
    [zin] is the last assigned value whose size matched [xin], or the
    original one if none did; so a stored [zin] that matches [xin] in size
    still does. *)
Theorem assignments_keep_the_last_fitting_value (values : list array_like) (self : t) :
  let fits := fun v => Nat.eqb (size (asarray v)) (size (xin self)) in
  let final := fold_left (fun s v => snd (set_zin v s)) values self in
  xin final = xin self /\ yin final = yin self /\ sigma final = sigma self /\
  k final = k self /\ nppc final = nppc self /\
  npmin final = npmin self /\ npmax final = npmax self /\
  zin final = last (filter fits values) (zin self) /\
  (fits (zin self) = true -> fits (zin final) = true).
Proof.
  intros fits final.
  destruct (assignments_final values self) as [(Hx & Hy & Hs & Hk & Hc & Hmin & Hmax) Hz].
  fold final in Hx, Hy, Hs, Hk, Hc, Hmin, Hmax, Hz. fold fits in Hz.
  repeat (split; [assumption|]).
  intros Hfit. rewrite Hz.
  destruct (filter fits values) as [|v l] eqn:E; [assumption|].
  assert (Hin : In (last (v :: l) (zin self)) (filter fits values)).
  { rewrite E. destruct (exists_last (l := v :: l)) as (l' & a & El); [discriminate|].
    rewrite El, last_last. rewrite <- El. rewrite El. apply in_or_app. right. now left. }
  apply filter_In in Hin. apply Hin.
Qed.

Section Calls.

Variable csa_approximatepoints2 :
  Z -> list float -> list float -> list float -> option (list float) ->
  Z -> list float -> list float -> Z -> Z -> Z -> Z -> nat -> float.
Variable sigma_times_ones : sigma_t -> ndarray -> result (list float).

Local Abbreviation calculate_points := (_calculate_points csa_approximatepoints2 sigma_times_ones).
Local Abbreviation call := (__call__ csa_approximatepoints2 sigma_times_ones).

Lemma sigma_argument_length (self : t) (a : list float) :
  sigma_argument sigma_times_ones self = Ok (Some a) -> length a = size (xin self).
Proof.
  unfold sigma_argument. destruct (sigma self) as [s|]; [|discriminate].
  destruct (sigma_times_ones s (xin self)) as [values|]; simpl; [|discriminate].
  destruct (c_double_array (size (xin self)) values) as [a'|] eqn:E; simpl; [|discriminate].
  intros [= <-]. now apply c_double_array_has_length in E.
Qed.

(** What a successful [_calculate_points] went through. *)
Lemma calculate_points_inv (self : t) (xout yout : array_like) (m : masked_array) :
  calculate_points self xout yout = Ok m ->
  exists sg ayin zflat azin ayout,
    sigma_argument sigma_times_ones self = Ok sg /\
    c_double_array (size (xin self)) (flat (yin self)) = Ok ayin /\
    attr_flat (_zin self) = Ok zflat /\
    c_double_array (size (xin self)) zflat = Ok azin /\
    c_double_array (size (asarray xout)) (flat (asarray yout)) = Ok ayout /\
    let z := approximated csa_approximatepoints2 self sg (flat (xin self)) ayin azin
               (flat (asarray xout)) ayout (size (asarray xout)) in
    m = mk_masked (shape (asarray xout)) z (map PrimFloat.is_nan z).
Proof.
  unfold _calculate_points.
  destruct (sigma_argument sigma_times_ones self) as [sg|] eqn:Hsg; simpl; [|discriminate].
  unfold size at 1. rewrite CSAFacts.c_double_array_exact. simpl.
  fold (size (xin self)).
  destruct (c_double_array _ (flat (yin self))) as [ayin|] eqn:Hy; simpl; [|discriminate].
  destruct (attr_flat (_zin self)) as [zflat|] eqn:Hzf; simpl; [|discriminate].
  destruct (c_double_array _ zflat) as [azin|] eqn:Hz; simpl; [|discriminate].
  unfold size at 1. rewrite CSAFacts.c_double_array_exact. simpl.
  fold (size (asarray xout)).
  destruct (c_double_array _ (flat (asarray yout))) as [ayout|] eqn:Hyo; simpl; [|discriminate].
  unfold set_shape.
  match goal with |- context [if ?c then _ else _] => destruct c end;
    simpl; [|discriminate].
  intros [= <-]. exists sg, ayin, zflat, azin, ayout.
  repeat (split; [assumption || reflexivity|]). reflexivity.
Qed.

(** X4: for an empty [xout] a call that returns gives the empty masked
    array of [xout]'s shape; nothing of what the C routine computed is
    read. *)
Theorem empty_output_is_empty (self : t) (xout yout : array_like) (m : masked_array) :
  call self xout yout = Ok m ->
  size (asarray xout) = 0%nat ->
  m = mk_masked (shape (asarray xout)) [] [].
Proof.
  intros H H0. rewrite CSAFacts.call_is_calculate_points in H.
  apply calculate_points_inv in H as (sg & ayin & zflat & azin & ayout & _ & _ & _ & _ & _ & Hm).
  cbv zeta in Hm. unfold approximated in Hm. rewrite H0 in Hm. exact Hm.
Qed.

(** X8: an object whose stored [zin] is a Python list, as the constructor
    stores one without converting it, cannot be evaluated: the constructor
    accepts the list, whatever [sigma] is, and no call ever returns; once
    [sigma] has been converted (as it always is when [sigma] is [None]) the
    call raises AttributeError at [self._zin.flat]. *)
Theorem list_zin_breaks_every_call (a b : ndarray) (l : list float)
    (sg : option sigma_t) (npmin npmax k nppc : Z) (xout yout : array_like) :
  size a = size b ->
  exists self,
    __init__ (PyArray a) (PyArray b) (PyList l) sg npmin npmax k nppc = Ok self /\
    is_Ok (call self xout yout) = false /\
    ((sg = None \/ exists s, sigma_argument sigma_times_ones self = Ok s) ->
     call self xout yout = Raise (AttributeError "'list' object has no attribute 'flat'")).
Proof.
  intros E. exists (mk a b (PyList l) sg k nppc npmin npmax).
  assert (Hraise : forall s,
             sigma_argument sigma_times_ones (mk a b (PyList l) sg k nppc npmin npmax) = Ok s ->
             call (mk a b (PyList l) sg k nppc npmin npmax) xout yout =
             Raise (AttributeError "'list' object has no attribute 'flat'")).
  { intros s Hs. rewrite CSAFacts.call_is_calculate_points. unfold _calculate_points.
    rewrite Hs. cbn [bind xin yin _zin].
    rewrite (@c_double_array_of_length (size a) (flat a) eq_refl). cbn [bind].
    rewrite (@c_double_array_of_length (size a) (flat b) (eq_sym E)). reflexivity. }
  split; [|split].
  - rewrite CSAFacts.init_on_arrays. apply Nat.eqb_eq in E. now rewrite E.
  - destruct (sigma_argument sigma_times_ones (mk a b (PyList l) sg k nppc npmin npmax))
      as [s|e] eqn:Hs.
    + now rewrite (Hraise s eq_refl).
    + rewrite CSAFacts.call_is_calculate_points. unfold _calculate_points.
      now rewrite Hs.
  - intros [->|[s Hs]].
    + now apply (Hraise None).
    + now apply (Hraise s).
Qed.

(** X9: a stored [zin] shorter than [xin] is not refused by the call: the
    result is the one for [zin] extended with zeros to [xin]'s size. *)
Theorem short_zin_is_padded_with_zeros (self : t) (z : ndarray) (xout yout : array_like) :
  _zin self = PyArray z ->
  (size z <= size (xin self))%nat ->
  let padded :=
    mk_ndarray [size (xin self)]
      (flat z ++ repeat PrimFloat.zero (size (xin self) - size z)) in
  call self xout yout = call (with_zin self (PyArray padded)) xout yout.
Proof.
  intros Hz Hle padded.
  assert (Hp : c_double_array (size (xin self)) (flat padded) = Ok (flat padded)).
  { replace (size (xin self)) with (length (flat padded)) at 1.
    - apply CSAFacts.c_double_array_exact.
    - unfold padded. simpl. rewrite length_app, repeat_length. unfold size in *. lia. }
  rewrite (CSAFacts.call_is_calculate_points _ _ self),
          (CSAFacts.call_is_calculate_points _ _ (with_zin self (PyArray padded))).
  unfold _calculate_points, approximated.
  change (sigma_argument sigma_times_ones (with_zin self (PyArray padded)))
    with (sigma_argument sigma_times_ones self).
  cbn [with_zin xin yin _zin sigma k nppc npmin npmax].
  destruct (sigma_argument sigma_times_ones self) as [sg|]; cbn [bind]; [|reflexivity].
  destruct (c_double_array (size (xin self)) (flat (xin self))) as [axin|];
    cbn [bind]; [|reflexivity].
  destruct (c_double_array (size (xin self)) (flat (yin self))) as [ayin|];
    cbn [bind]; [|reflexivity].
  rewrite Hz. cbn [attr_flat bind].
  rewrite Hp, (CSAFacts.c_double_array_fits (flat z) Hle).
  reflexivity.
Qed.

(** X10: a stored [zin] longer than [xin] makes the call raise IndexError,
    once [sigma] and [yin] have been converted. *)
Theorem long_zin_raises_IndexError (self : t) (z : ndarray) (xout yout : array_like)
    (sg : option (list float)) :
  _zin self = PyArray z ->
  (size (xin self) < size z)%nat ->
  sigma_argument sigma_times_ones self = Ok sg ->
  (size (yin self) <= size (xin self))%nat ->
  call self xout yout = Raise (IndexError "invalid index").
Proof.
  intros Hz Hlt Hsg Hy.
  rewrite CSAFacts.call_is_calculate_points. unfold _calculate_points.
  rewrite Hsg. simpl. unfold size at 1. rewrite CSAFacts.c_double_array_exact. simpl.
  fold (size (xin self)). rewrite (CSAFacts.c_double_array_fits (flat (yin self)) Hy). simpl.
  rewrite Hz. simpl. rewrite (c_double_array_too_long (flat z) Hlt). reflexivity.
Qed.

(** X14: a [yout] shorter than [xout] is not refused either: the result is
    the one for [yout] extended with zeros to [xout]'s size. *)
Theorem short_yout_is_padded_with_zeros (self : t) (xout yout : array_like) :
  (size (asarray yout) <= size (asarray xout))%nat ->
  let padded :=
    mk_ndarray (shape (asarray xout))
      (flat (asarray yout) ++
       repeat PrimFloat.zero (size (asarray xout) - size (asarray yout))) in
  call self xout yout = call self xout (PyArray padded).
Proof.
  intros Hle padded.
  assert (Hp : c_double_array (size (asarray xout)) (flat padded) = Ok (flat padded)).
  { replace (size (asarray xout)) with (length (flat padded)) at 1.
    - apply CSAFacts.c_double_array_exact.
    - unfold padded. simpl. rewrite length_app, repeat_length. unfold size in *. lia. }
  rewrite (CSAFacts.call_is_calculate_points _ _ self xout yout),
          (CSAFacts.call_is_calculate_points _ _ self xout (PyArray padded)).
  unfold _calculate_points. cbn [asarray].
  destruct (sigma_argument sigma_times_ones self) as [sg|]; cbn [bind]; [|reflexivity].
  destruct (c_double_array (size (xin self)) (flat (xin self))) as [axin|];
    cbn [bind]; [|reflexivity].
  destruct (c_double_array (size (xin self)) (flat (yin self))) as [ayin|];
    cbn [bind]; [|reflexivity].
  destruct (attr_flat (_zin self)) as [zflat|]; cbn [bind]; [|reflexivity].
  destruct (c_double_array (size (xin self)) zflat) as [azin|]; cbn [bind]; [|reflexivity].
  destruct (c_double_array (size (asarray xout)) (flat (asarray xout))) as [axout|];
    cbn [bind]; [|reflexivity].
  rewrite Hp, (CSAFacts.c_double_array_fits (flat (asarray yout)) Hle).
  reflexivity.
Qed.

(** X15: the intended use always goes through: built from three ndarrays
    of one size and without [sigma], an interpolator called on [xout] and
    [yout] of one size returns a masked array of [xout]'s shape with one
    value per output point. *)
Theorem equal_sized_arrays_always_evaluate (a b z : ndarray) (npmin npmax k nppc : Z)
    (xout yout : array_like) :
  size a = size b -> size z = size a ->
  wf (asarray xout) -> size (asarray yout) = size (asarray xout) ->
  exists self m,
    __init__ (PyArray a) (PyArray b) (PyArray z) None npmin npmax k nppc = Ok self /\
    call self xout yout = Ok m /\
    ma_shape m = shape (asarray xout) /\
    length (ma_data m) = size (asarray xout) /\
    ma_mask m = map PrimFloat.is_nan (ma_data m).
Proof.
  intros Eab Ez Hwf Ey.
  set (self := mk a b (PyArray z) None k nppc npmin npmax).
  set (vals := approximated csa_approximatepoints2 self None (flat a) (flat b) (flat z)
                 (flat (asarray xout)) (flat (asarray yout)) (size (asarray xout))).
  assert (Hlen : length vals = size (asarray xout)).
  { unfold vals, approximated. now rewrite length_map, length_seq. }
  exists self, (mk_masked (shape (asarray xout)) vals (map PrimFloat.is_nan vals)).
  split; [|split; [|repeat split; assumption]].
  - rewrite CSAFacts.init_on_arrays. apply Nat.eqb_eq in Eab. now rewrite Eab.
  - rewrite CSAFacts.call_is_calculate_points. unfold _calculate_points, sigma_argument.
    cbn [self xin yin _zin sigma attr_flat bind].
    rewrite (@c_double_array_of_length (size a) (flat a) eq_refl). cbn [bind].
    rewrite (@c_double_array_of_length (size a) (flat b) (eq_sym Eab)). cbn [bind].
    rewrite (@c_double_array_of_length (size a) (flat z) Ez). cbn [bind].
    rewrite (@c_double_array_of_length (size (asarray xout)) (flat (asarray xout)) eq_refl).
    cbn [bind].
    rewrite (@c_double_array_of_length (size (asarray xout)) (flat (asarray yout)) Ey).
    cbn [bind].
    fold self. fold vals.
    unfold set_shape.
    replace (size (asarray (PyList vals))) with (size (asarray xout))
      by (unfold size at 2; simpl; now rewrite Hlen).
    red in Hwf. rewrite Hwf, Nat.eqb_refl. reflexivity.
Qed.

End Calls.

(** X11: the C routine is only ever handed arrays of the lengths it is
    told: [xin], [yin], [zin] and [sigma] (when given) of [nin] elements,
    [xout] and [yout] of [nout], with the counts and the tunables converted
    by [c_int]; and only the first [nout] values of its result are read.
    Two routines that agree on such calls give the same outcome. *)
Theorem routine_gets_arrays_of_the_declared_lengths
    (f g : Z -> list float -> list float -> list float -> option (list float) ->
           Z -> list float -> list float -> Z -> Z -> Z -> Z -> nat -> float)
    (sigma_times_ones : sigma_t -> ndarray -> result (list float))
    (self : t) (xout yout : array_like) :
  let nin := size (xin self) in
  let nout := size (asarray xout) in
  (forall xs ys zs sg xo yo i,
     length xs = nin -> length ys = nin -> length zs = nin ->
     (forall s, sg = Some s -> length s = nin) ->
     length xo = nout -> length yo = nout -> (i < nout)%nat ->
     f (c_int (Z.of_nat nin)) xs ys zs sg (c_int (Z.of_nat nout)) xo yo
       (c_int (npmin self)) (c_int (npmax self)) (c_int (k self)) (c_int (nppc self)) i =
     g (c_int (Z.of_nat nin)) xs ys zs sg (c_int (Z.of_nat nout)) xo yo
       (c_int (npmin self)) (c_int (npmax self)) (c_int (k self)) (c_int (nppc self)) i) ->
  _calculate_points f sigma_times_ones self xout yout =
  _calculate_points g sigma_times_ones self xout yout.
Proof.
  intros nin nout H. unfold _calculate_points.
  destruct (sigma_argument sigma_times_ones self) as [sg|] eqn:Hsg; cbn [bind]; [|reflexivity].
  destruct (c_double_array (size (xin self)) (flat (xin self))) as [axin|] eqn:Hx;
    cbn [bind]; [|reflexivity].
  destruct (c_double_array (size (xin self)) (flat (yin self))) as [ayin|] eqn:Hy;
    cbn [bind]; [|reflexivity].
  destruct (attr_flat (_zin self)) as [zflat|]; cbn [bind]; [|reflexivity].
  destruct (c_double_array (size (xin self)) zflat) as [azin|] eqn:Hz;
    cbn [bind]; [|reflexivity].
  destruct (c_double_array (size (asarray xout)) (flat (asarray xout))) as [axout|] eqn:Hxo;
    cbn [bind]; [|reflexivity].
  destruct (c_double_array (size (asarray xout)) (flat (asarray yout))) as [ayout|] eqn:Hyo;
    cbn [bind]; [|reflexivity].
  replace (approximated g self sg axin ayin azin axout ayout (size (asarray xout)))
    with (approximated f self sg axin ayin azin axout ayout (size (asarray xout)));
    [reflexivity|].
  unfold approximated. apply map_ext_in. intros i Hi. apply in_seq in Hi.
  apply H; eauto using c_double_array_has_length; [|lia].
  intros s ->. now apply sigma_argument_length in Hsg.
Qed.

Import CSAExample.
Local Open Scope float_scope.

Lemma empty_output_is_empty_witness :
  __call__ half_plane_fit broadcast_1d csa3 (PyList []) (PyList []) =
    Ok (mk_masked [0%nat] [] []) /\
  mk_masked [0%nat] [] [] = mk_masked (shape (asarray (PyList []))) [] [].
Proof.
  split; [reflexivity|].
  apply (@empty_output_is_empty half_plane_fit broadcast_1d csa3 (PyList []) (PyList [])
           (mk_masked [0%nat] [] [])); reflexivity.
Defined.

Lemma list_zin_breaks_every_call_witness :
  exists self,
    __init__ (PyArray points3) (PyArray points3) (PyList [5; 6; 7]) None
             default_npmin default_npmax default_k default_nppc = Ok self /\
    is_Ok (__call__ half_plane_fit broadcast_1d self
             (PyArray grid2x2_x) (PyArray grid2x2_y)) = false /\
    ((@None sigma_t = None \/ exists s, sigma_argument broadcast_1d self = Ok s) ->
     __call__ half_plane_fit broadcast_1d self (PyArray grid2x2_x) (PyArray grid2x2_y) =
     Raise (AttributeError "'list' object has no attribute 'flat'")).
Proof.
  apply (@list_zin_breaks_every_call half_plane_fit broadcast_1d points3 points3 [5; 6; 7]
           None default_npmin default_npmax default_k default_nppc
           (PyArray grid2x2_x) (PyArray grid2x2_y)).
  reflexivity.
Defined.

Lemma short_zin_is_padded_with_zeros_witness :
  let self := with_zin csa3 (PyArray (mk_ndarray [1%nat] [5])) in
  __call__ half_plane_fit broadcast_1d self (PyArray grid2x2_x) (PyArray grid2x2_y) =
  __call__ half_plane_fit broadcast_1d
    (with_zin self (PyArray (mk_ndarray [3%nat] [5; 0; 0])))
    (PyArray grid2x2_x) (PyArray grid2x2_y).
Proof.
  intros self.
  apply (@short_zin_is_padded_with_zeros half_plane_fit broadcast_1d self
           (mk_ndarray [1%nat] [5]) (PyArray grid2x2_x) (PyArray grid2x2_y)).
  - reflexivity.
  - cbv. lia.
Defined.

Lemma long_zin_raises_IndexError_witness :
  __call__ half_plane_fit broadcast_1d
    (with_zin csa3 (PyArray (mk_ndarray [4%nat] [5; 6; 7; 8])))
    (PyArray grid2x2_x) (PyArray grid2x2_y) =
  Raise (IndexError "invalid index").
Proof.
  apply (@long_zin_raises_IndexError half_plane_fit broadcast_1d
           (with_zin csa3 (PyArray (mk_ndarray [4%nat] [5; 6; 7; 8])))
           (mk_ndarray [4%nat] [5; 6; 7; 8]) (PyArray grid2x2_x) (PyArray grid2x2_y) None).
  - reflexivity.
  - cbv. lia.
  - reflexivity.
  - cbv. lia.
Defined.

Lemma short_yout_is_padded_with_zeros_witness :
  __call__ half_plane_fit broadcast_1d csa3 (PyArray grid2x2_x) (PyList [7]) =
  __call__ half_plane_fit broadcast_1d csa3 (PyArray grid2x2_x)
    (PyArray (mk_ndarray [2%nat; 2%nat] [7; 0; 0; 0])).
Proof.
  apply (@short_yout_is_padded_with_zeros half_plane_fit broadcast_1d csa3
           (PyArray grid2x2_x) (PyList [7])).
  cbv. lia.
Defined.

Lemma equal_sized_arrays_always_evaluate_witness :
  exists self m,
    __init__ (PyArray points3) (PyArray points3) (PyArray points3) None
             default_npmin default_npmax default_k default_nppc = Ok self /\
    __call__ half_plane_fit broadcast_1d self (PyArray grid2x2_x) (PyArray grid2x2_y) = Ok m /\
    ma_shape m = shape (asarray (PyArray grid2x2_x)) /\
    length (ma_data m) = size (asarray (PyArray grid2x2_x)) /\
    ma_mask m = map PrimFloat.is_nan (ma_data m).
Proof.
  apply (@equal_sized_arrays_always_evaluate half_plane_fit broadcast_1d
           points3 points3 points3 default_npmin default_npmax default_k default_nppc
           (PyArray grid2x2_x) (PyArray grid2x2_y)); reflexivity.
Defined.

(** A routine that differs from [half_plane_fit] only where the call never
    looks: past the end of [xout]. *)
Lemma routine_gets_arrays_of_the_declared_lengths_witness :
  let g := fun nin xin yin zin sg nout xout yout npmin npmax k nppc i =>
    if Nat.ltb i (length xout)
    then half_plane_fit nin xin yin zin sg nout xout yout npmin npmax k nppc i
    else 1 in
  _calculate_points half_plane_fit broadcast_1d csa3 (PyArray grid2x2_x) (PyArray grid2x2_y) =
  _calculate_points g broadcast_1d csa3 (PyArray grid2x2_x) (PyArray grid2x2_y).
Proof.
  intros g.
  apply (@routine_gets_arrays_of_the_declared_lengths half_plane_fit g broadcast_1d csa3
           (PyArray grid2x2_x) (PyArray grid2x2_y)).
  intros xs ys zs sg xo yo i _ _ _ _ Hxo _ Hi. unfold g.
  rewrite Hxo. apply Nat.ltb_lt in Hi. now rewrite Hi.
Defined.

End CSAUse.

(** * What the array tests demand of a grid *)

Module OracleFacts.

Import Testing Knowns Grid StaggerDeriver Fixtures.
Local Open Scope Q_scope.

Lemma all2_nth_error_l {A B : Type} (p : A -> B -> bool) (l : list A) (m : list B)
    (i : nat) (a : A) :
  all2 p l m = true -> nth_error l i = Some a ->
  exists b, nth_error m i = Some b /\ p a b = true.
Proof.
  revert m i. induction l as [|a' l IH]; intros [|b m] i H Ha; simpl in H; try discriminate.
  - destruct i; discriminate.
  - apply andb_true_iff in H as [Hab Hrest].
    destruct i as [|i]; simpl in *.
    + injection Ha as <-. now exists b.
    + now apply IH.
Qed.

Lemma all2_length {A B : Type} (p : A -> B -> bool) (l : list A) (m : list B) :
  all2 p l m = true -> length l = length m.
Proof.
  revert m. induction l as [|a l IH]; intros [|b m] H; simpl in H; try discriminate.
  - reflexivity.
  - apply andb_true_iff in H as [_ H]. simpl. f_equal. now apply IH.
Qed.

(** A passing comparison transfers the shape of the table. *)
Lemma almost_equal_shape (actual desired : matrix) (decimal rows cols : nat) :
  assert_array_almost_equal actual desired decimal = true ->
  has_shape desired rows cols -> has_shape actual rows cols.
Proof.
  unfold assert_array_almost_equal. intros H [Hr Hc]. split.
  - rewrite <- Hr. eapply all2_length; eauto.
  - apply Forall_forall. intros row Hin.
    apply In_nth_error in Hin as [i Hi].
    destruct (all2_nth_error_l _ _ _ _ H Hi) as (drow & Hd & Hrow).
    rewrite (all2_length _ _ _ Hrow).
    rewrite Forall_forall in Hc. apply Hc. eapply nth_error_In; eauto.
Qed.

Lemma almost_equal_shape_of_actual (actual desired : matrix) (decimal rows cols : nat) :
  assert_array_almost_equal actual desired decimal = true ->
  has_shape actual rows cols -> has_shape desired rows cols.
Proof.
  unfold assert_array_almost_equal. intros H [Hr Hc]. split.
  - rewrite <- Hr. symmetry. eapply all2_length; eauto.
  - apply Forall_forall. intros row Hin.
    apply In_nth_error in Hin as [i Hi].
    destruct (StaggerFacts.all2_nth_error _ _ _ _ H Hi) as (arow & Ha & Hrow).
    rewrite <- (all2_length _ _ _ Hrow).
    rewrite Forall_forall in Hc. apply Hc. eapply nth_error_In; eauto.
Qed.

Lemma almost_equal_entry_of_actual (actual desired : matrix) (decimal i j : nat) (a : Q) :
  assert_array_almost_equal actual desired decimal = true ->
  get actual i j = Some a ->
  exists d, get desired i j = Some d /\ Qabs (a - d) < tolerance decimal.
Proof.
  unfold assert_array_almost_equal, get. intros H Ha.
  destruct (nth_error actual i) as [arow|] eqn:Ea; [|discriminate].
  destruct (all2_nth_error_l _ _ _ _ H Ea) as (drow & Ed & Hrow).
  destruct (all2_nth_error_l _ _ _ _ Hrow Ha) as (d & Hd & Hlt).
  exists d. rewrite Ed. split; [assumption|]. now apply StaggerFacts.Qltb_lt.
Qed.

Lemma get_tabulate_inv (rows cols : nat) (f : nat -> nat -> Q) (i j : nat) (v : Q) :
  get (tabulate rows cols f) i j = Some v ->
  (i < rows)%nat /\ (j < cols)%nat /\ v = f i j.
Proof.
  intros H.
  assert (Hi : (i < rows)%nat).
  { destruct (Nat.lt_ge_cases i rows) as [|Hge]; [assumption|].
    unfold get in H.
    assert (E : nth_error (tabulate rows cols f) i = None)
      by (apply nth_error_None; now rewrite StaggerFacts.tabulate_length).
    rewrite E in H. discriminate. }
  assert (Hj : (j < cols)%nat).
  { destruct (Nat.lt_ge_cases j cols) as [|Hge]; [assumption|].
    unfold get, tabulate in H.
    rewrite StaggerFacts.nth_error_map_seq in H by assumption.
    assert (E : nth_error (map (fun j0 => f i j0) (seq 0 cols)) j = None)
      by (apply nth_error_None; now rewrite length_map, length_seq).
    rewrite E in H. discriminate. }
  rewrite StaggerFacts.get_tabulate in H by assumption.
  injection H as <-. auto.
Qed.

(** An array compared with a table that is itself close to a tabulated
    rule is within two tolerances of the rule. *)
Lemma near_tabulated (D KD : matrix) (rows cols : nat) (F : nat -> nat -> Q)
    (decimal i j : nat) (d : Q) :
  assert_array_almost_equal D KD decimal = true ->
  assert_array_almost_equal (tabulate rows cols F) KD decimal = true ->
  get D i j = Some d ->
  (i < rows)%nat /\ (j < cols)%nat /\ Qabs (d - F i j) < 2 * tolerance decimal.
Proof.
  intros HD HK Hd.
  destruct (almost_equal_entry_of_actual _ _ _ _ _ HD Hd) as (kd & Hkd & B1).
  destruct (StaggerFacts.almost_equal_entry _ _ _ _ _ HK Hkd) as (m & Hm & B2).
  apply get_tabulate_inv in Hm as (Hi & Hj & ->).
  repeat split; try assumption.
  apply Qabs_Qlt_condition in B1, B2. apply Qabs_Qlt_condition. lra.
Qed.

Lemma near_entry (X KX : matrix) (rows cols decimal i j : nat) :
  assert_array_almost_equal X KX decimal = true ->
  has_shape KX rows cols -> (i < rows)%nat -> (j < cols)%nat ->
  exists a, get X i j = Some a /\ Qabs (a - entry KX i j) < tolerance decimal.
Proof.
  intros H HK Hi Hj.
  destruct (StaggerFacts.get_in_shape HK Hi Hj) as (ka & Hka & <-).
  destruct (StaggerFacts.almost_equal_entry _ _ _ _ _ H Hka) as (a & Ha & B).
  exists a. split; [assumption|].
  unfold entry. unfold get in Hka.
  destruct (nth_error KX i) as [row|] eqn:E; [|discriminate].
  rewrite (nth_error_nth _ _ [] E), (nth_error_nth _ _ 0 Hka). exact B.
Qed.

Lemma average_four (a b c d : Q) : average [a; b; c; d] == (a + b + c + d) * 0.25.
Proof.
  unfold average, Qdiv. simpl.
  change (/ inject_Z 4) with (1 # 4). setoid_replace 0.25 with (1 # 4) by reflexivity.
  ring.
Qed.

Ltac bounds :=
  repeat match goal with
         | H : Qabs _ < _ |- _ => apply Qabs_Qlt_condition in H
         end;
  apply Qabs_Qlt_condition;
  repeat rewrite average_four in *; repeat rewrite StaggerFacts.average_pair in *;
  repeat rewrite StaggerFacts.tolerance_2 in *;
  lra.

Section Rules.

(** A primary table [KX] of shape [(rows, cols)] with the four derived
    tables that the rules reproduce to two decimals, and the five arrays
    [X], [P], [R], [U], [V] of a grid that pass the comparison with them. *)
Variables (KX KP KR KU KV X P R U V : matrix) (rows cols : nat).
Hypothesis KX_shape : has_shape KX rows cols.
Hypothesis X_close : assert_array_almost_equal X KX 2 = true.
Hypothesis P_close : assert_array_almost_equal P KP 2 = true.
Hypothesis R_close : assert_array_almost_equal R KR 2 = true.
Hypothesis U_close : assert_array_almost_equal U KU 2 = true.
Hypothesis V_close : assert_array_almost_equal V KV 2 = true.
Hypothesis KP_rule : assert_array_almost_equal (psi KX) KP 2 = true.
Hypothesis KR_rule : assert_array_almost_equal (rho KX) KR 2 = true.
Hypothesis KU_rule : assert_array_almost_equal (u_of_vert KX) KU 2 = true.
Hypothesis KV_rule : assert_array_almost_equal (v_of_vert KX) KV 2 = true.

Lemma KX_dims : (0 < rows)%nat -> StaggerDeriver.ny KX = rows /\ StaggerDeriver.nx KX = cols.
Proof.
  intros H. split.
  - now apply StaggerFacts.shape_ny with (cols := cols).
  - now apply StaggerFacts.shape_nx with (rows := rows).
Qed.

Lemma KX_rows : StaggerDeriver.ny KX = rows.
Proof. now apply StaggerFacts.shape_ny with (cols := cols). Qed.

Lemma psi_enforced : psi_within 0.045 X P.
Proof.
  intros i j p Hp. unfold psi in KP_rule.
  destruct (@near_tabulated P KP _ _ _ 2 i j p P_close KP_rule Hp) as (Hi & Hj & B).
  rewrite KX_rows in Hi.
  destruct KX_dims as [_ Ec]; [lia|]. rewrite Ec in Hj.
  destruct (@near_entry X KX rows cols 2 (i + 1) (j + 1) X_close KX_shape) as (a & Ha & Ba);
    [lia|lia|].
  exists a. split; [assumption|]. bounds.
Qed.

Lemma rho_enforced : rho_within 0.045 X R.
Proof.
  intros i j r Hr. unfold rho in KR_rule.
  destruct (@near_tabulated R KR _ _ _ 2 i j r R_close KR_rule Hr) as (Hi & Hj & B).
  rewrite KX_rows in Hi.
  destruct KX_dims as [_ Ec]; [lia|]. rewrite Ec in Hj.
  destruct (@near_entry X KX rows cols 2 i j X_close KX_shape) as (a & Ha & Ba); [lia|lia|].
  destruct (@near_entry X KX rows cols 2 i (j + 1) X_close KX_shape) as (b & Hb & Bb); [lia|lia|].
  destruct (@near_entry X KX rows cols 2 (i + 1) j X_close KX_shape) as (c & Hc & Bc); [lia|lia|].
  destruct (@near_entry X KX rows cols 2 (i + 1) (j + 1) X_close KX_shape) as (d & Hd & Bd);
    [lia|lia|].
  exists a, b, c, d. repeat (split; [assumption|]). bounds.
Qed.

Lemma u_enforced : u_within 0.045 X U.
Proof.
  intros i j u Hu. unfold u_of_vert in KU_rule.
  destruct (@near_tabulated U KU _ _ _ 2 i j u U_close KU_rule Hu) as (Hi & Hj & B).
  rewrite KX_rows in Hi.
  destruct KX_dims as [_ Ec]; [lia|]. rewrite Ec in Hj.
  destruct (@near_entry X KX rows cols 2 i (j + 1) X_close KX_shape) as (a & Ha & Ba); [lia|lia|].
  destruct (@near_entry X KX rows cols 2 (i + 1) (j + 1) X_close KX_shape) as (b & Hb & Bb);
    [lia|lia|].
  exists a, b. repeat (split; [assumption|]). bounds.
Qed.

Lemma v_enforced : v_within 0.045 X V.
Proof.
  intros i j v Hv. unfold v_of_vert in KV_rule.
  destruct (@near_tabulated V KV _ _ _ 2 i j v V_close KV_rule Hv) as (Hi & Hj & B).
  rewrite KX_rows in Hi.
  destruct KX_dims as [_ Ec]; [lia|]. rewrite Ec in Hj.
  destruct (@near_entry X KX rows cols 2 (i + 1) j X_close KX_shape) as (a & Ha & Ba); [lia|lia|].
  destruct (@near_entry X KX rows cols 2 (i + 1) (j + 1) X_close KX_shape) as (b & Hb & Bb);
    [lia|lia|].
  exists a, b. repeat (split; [assumption|]). bounds.
Qed.

End Rules.

Local Open Scope string_scope.

Lemma test_xy_passes (g : grid) (known : knowns) (kx ky : matrix) :
  lookup "vert" known = Some (kx, ky) ->
  test_xy g known = true ->
  assert_array_almost_equal (x g) kx 2 = true /\ assert_array_almost_equal (y g) ky 2 = true.
Proof.
  intros Hk. unfold test_xy. rewrite Hk. apply andb_true_iff.
Qed.

(** The ten comparisons behind [array_tests], by array. *)
Lemma array_tests_facts (g : grid) (known : knowns)
    (KX KY KPx KPy KRx KRy KUx KUy KVx KVy : matrix) :
  lookup "vert" known = Some (KX, KY) ->
  lookup "psi" known = Some (KPx, KPy) ->
  lookup "rho" known = Some (KRx, KRy) ->
  lookup "u" known = Some (KUx, KUy) ->
  lookup "v" known = Some (KVx, KVy) ->
  array_tests g known = true ->
  (assert_array_almost_equal (x g) KX 2 = true /\
   assert_array_almost_equal (y g) KY 2 = true) /\
  (assert_array_almost_equal (x_vert g) KX 2 = true /\
   assert_array_almost_equal (y_vert g) KY 2 = true) /\
  (assert_array_almost_equal (x_psi g) KPx 2 = true /\
   assert_array_almost_equal (y_psi g) KPy 2 = true) /\
  (assert_array_almost_equal (x_rho g) KRx 2 = true /\
   assert_array_almost_equal (y_rho g) KRy 2 = true) /\
  (assert_array_almost_equal (x_u g) KUx 2 = true /\
   assert_array_almost_equal (y_u g) KUy 2 = true) /\
  (assert_array_almost_equal (x_v g) KVx 2 = true /\
   assert_array_almost_equal (y_v g) KVy 2 = true).
Proof.
  intros Hvert Hpsi Hrho Hu Hv H.
  unfold array_tests, attr_suffixes in H. cbn [forallb] in H.
  repeat (apply andb_true_iff in H; destruct H as [? H]).
  repeat match goal with |- _ /\ _ => split end.
  1-2: now apply (@test_xy_passes g known KX KY Hvert).
  1-2: now apply (@StaggerFacts.test_other_arrays_passes g known "vert"
                    (x_vert g) (y_vert g) KX KY eq_refl eq_refl Hvert).
  1-2: now apply (@StaggerFacts.test_other_arrays_passes g known "psi"
                    (x_psi g) (y_psi g) KPx KPy eq_refl eq_refl Hpsi).
  1-2: now apply (@StaggerFacts.test_other_arrays_passes g known "rho"
                    (x_rho g) (y_rho g) KRx KRy eq_refl eq_refl Hrho).
  1-2: now apply (@StaggerFacts.test_other_arrays_passes g known "u"
                    (x_u g) (y_u g) KUx KUy eq_refl eq_refl Hu).
  1-2: now apply (@StaggerFacts.test_other_arrays_passes g known "v"
                    (x_v g) (y_v g) KVx KVy eq_refl eq_refl Hv).
Qed.

(** The conclusion of the rule theorem, for one grid. *)
Lemma rules_for_tables (g : grid) (known : knowns)
    (KX KY KPx KPy KRx KRy KUx KUy KVx KVy : matrix) (rows cols : nat) :
  lookup "vert" known = Some (KX, KY) ->
  lookup "psi" known = Some (KPx, KPy) ->
  lookup "rho" known = Some (KRx, KRy) ->
  lookup "u" known = Some (KUx, KUy) ->
  lookup "v" known = Some (KVx, KVy) ->
  has_shape KX rows cols -> has_shape KY rows cols ->
  array_tests (derive KX KY) known = true ->
  array_tests g known = true ->
  (psi_within 0.045 (x g) (x_psi g) /\ psi_within 0.045 (y g) (y_psi g)) /\
  (rho_within 0.045 (x g) (x_rho g) /\ rho_within 0.045 (y g) (y_rho g)) /\
  (u_within 0.045 (x g) (x_u g) /\ u_within 0.045 (y g) (y_u g)) /\
  (v_within 0.045 (x g) (x_v g) /\ v_within 0.045 (y g) (y_v g)).
Proof.
  intros Hvert Hpsi Hrho Hu Hv SX SY HK Hg.
  destruct (@array_tests_facts g known KX KY KPx KPy KRx KRy KUx KUy KVx KVy
              Hvert Hpsi Hrho Hu Hv Hg)
    as ((Gx & Gy) & _ & (Gpx & Gpy) & (Grx & Gry) & (Gux & Guy) & (Gvx & Gvy)).
  destruct (@array_tests_facts (derive KX KY) known KX KY KPx KPy KRx KRy KUx KUy KVx KVy
              Hvert Hpsi Hrho Hu Hv HK)
    as (_ & _ & (Kpx & Kpy) & (Krx & Kry) & (Kux & Kuy) & (Kvx & Kvy)).
  cbn [derive x_psi y_psi x_rho y_rho x_u y_u x_v y_v] in *.
  repeat match goal with |- _ /\ _ => split end.
  - exact (@psi_enforced KX KPx (x g) (x_psi g) rows cols SX Gx Gpx Kpx).
  - exact (@psi_enforced KY KPy (y g) (y_psi g) rows cols SY Gy Gpy Kpy).
  - exact (@rho_enforced KX KRx (x g) (x_rho g) rows cols SX Gx Grx Krx).
  - exact (@rho_enforced KY KRy (y g) (y_rho g) rows cols SY Gy Gry Kry).
  - exact (@u_enforced KX KUx (x g) (x_u g) rows cols SX Gx Gux Kux).
  - exact (@u_enforced KY KUy (y g) (y_u g) rows cols SY Gy Guy Kuy).
  - exact (@v_enforced KX KVx (x g) (x_v g) rows cols SX Gx Gvx Kvx).
  - exact (@v_enforced KY KVy (y g) (y_v g) rows cols SY Gy Gvy Kvy).
Qed.

(** The shapes, for one grid. *)
Lemma shapes_for_tables (g : grid) (known : knowns)
    (KX KY KPx KPy KRx KRy KUx KUy KVx KVy : matrix) (rows cols : nat) :
  lookup "vert" known = Some (KX, KY) ->
  lookup "psi" known = Some (KPx, KPy) ->
  lookup "rho" known = Some (KRx, KRy) ->
  lookup "u" known = Some (KUx, KUy) ->
  lookup "v" known = Some (KVx, KVy) ->
  has_shape KX rows cols -> has_shape KY rows cols ->
  array_tests (derive KX KY) known = true ->
  array_tests g known = true ->
  (has_shape (x g) rows cols /\ has_shape (y g) rows cols) /\
  (has_shape (x_vert g) rows cols /\ has_shape (y_vert g) rows cols) /\
  (has_shape (x_psi g) (rows - 2) (cols - 2) /\ has_shape (y_psi g) (rows - 2) (cols - 2)) /\
  (has_shape (x_rho g) (rows - 1) (cols - 1) /\ has_shape (y_rho g) (rows - 1) (cols - 1)) /\
  (has_shape (x_u g) (rows - 1) (cols - 2) /\ has_shape (y_u g) (rows - 1) (cols - 2)) /\
  (has_shape (x_v g) (rows - 2) (cols - 1) /\ has_shape (y_v g) (rows - 2) (cols - 1)).
Proof.
  intros Hvert Hpsi Hrho Hu Hv SX SY HK Hg.
  destruct (@array_tests_facts g known KX KY KPx KPy KRx KRy KUx KUy KVx KVy
              Hvert Hpsi Hrho Hu Hv Hg)
    as ((Gx & Gy) & (Gvx' & Gvy') & (Gpx & Gpy) & (Grx & Gry) & (Gux & Guy) & (Gvx & Gvy)).
  destruct (@array_tests_facts (derive KX KY) known KX KY KPx KPy KRx KRy KUx KUy KVx KVy
              Hvert Hpsi Hrho Hu Hv HK)
    as (_ & _ & (Kpx & Kpy) & (Krx & Kry) & (Kux & Kuy) & (Kvx & Kvy)).
  cbn [derive x_psi y_psi x_rho y_rho x_u y_u x_v y_v] in *.
  assert (T : forall (M K : matrix) (dr dc : nat) (F : nat -> nat -> Q) (Z : matrix),
             has_shape Z rows cols ->
             assert_array_almost_equal (tabulate (ny Z - dr) (nx Z - dc) F) K 2 = true ->
             assert_array_almost_equal M K 2 = true ->
             has_shape M (rows - dr) (cols - dc)).
  { intros M K dr dc F Z SZ HKt HM.
    apply (@almost_equal_shape M K 2 _ _ HM).
    apply (@almost_equal_shape_of_actual _ K 2 _ _ HKt).
    now apply StaggerFacts.tabulate_shape_of. }
  unfold psi, rho, u_of_vert, v_of_vert in *.
  repeat match goal with |- _ /\ _ => split end.
  - exact (@almost_equal_shape _ KX 2 rows cols Gx SX).
  - exact (@almost_equal_shape _ KY 2 rows cols Gy SY).
  - exact (@almost_equal_shape _ KX 2 rows cols Gvx' SX).
  - exact (@almost_equal_shape _ KY 2 rows cols Gvy' SY).
  - exact (T _ _ _ _ _ _ SX Kpx Gpx).
  - exact (T _ _ _ _ _ _ SY Kpy Gpy).
  - exact (T _ _ _ _ _ _ SX Krx Grx).
  - exact (T _ _ _ _ _ _ SY Kry Gry).
  - exact (T _ _ _ _ _ _ SX Kux Gux).
  - exact (T _ _ _ _ _ _ SY Kuy Guy).
  - exact (T _ _ _ _ _ _ SX Kvx Gvx).
  - exact (T _ _ _ _ _ _ SY Kvy Gvy).
Qed.

Ltac table_shape := split; [reflexivity | repeat constructor].

Lemma basic_tables : 
  has_shape known_xy_basic.known_x 10 5 /\ has_shape known_xy_basic.known_y 10 5 /\
  array_tests (derive known_xy_basic.known_x known_xy_basic.known_y)
              known_xy_basic.known = true.
Proof. split; [table_shape|split; [table_shape|vm_compute; reflexivity]]. Qed.

Lemma focused_tables : 
  has_shape known_xy_focused.known_x 9 9 /\ has_shape known_xy_focused.known_y 9 9 /\
  array_tests (derive known_xy_focused.known_x known_xy_focused.known_y)
              known_xy_focused.known = true.
Proof. split; [table_shape|split; [table_shape|vm_compute; reflexivity]]. Qed.

Lemma with_proj_tables : 
  has_shape known_xy_with_proj.known_x 10 4 /\ has_shape known_xy_with_proj.known_y 10 4 /\
  array_tests (derive known_xy_with_proj.known_x known_xy_with_proj.known_y)
              known_xy_with_proj.known = true.
Proof. split; [table_shape|split; [table_shape|vm_compute; reflexivity]]. Qed.

(** X12: a grid that passes [test_xy] and the five [test_other_arrays]
    against the tables of any of the four fixture parameters has arrays of
    the shapes the suite's [known_shapes] give its name: [(ny, nx)] for the
    primary arrays, [(ny-2, nx-2)] for psi, [(ny-1, nx-1)] for rho,
    [(ny-1, nx-2)] for u and [(ny-2, nx-1)] for v, in both fields. *)
Theorem tests_enforce_the_shapes (name : string) (known : knowns) (ny nx : nat) (g : grid) :
  In (name, known) grid_and_knowns_params ->
  shape_of name known_shapes = Some (ny, nx) ->
  array_tests g known = true ->
  (has_shape (x g) ny nx /\ has_shape (y g) ny nx) /\
  (has_shape (x_vert g) ny nx /\ has_shape (y_vert g) ny nx) /\
  (has_shape (x_psi g) (ny - 2) (nx - 2) /\ has_shape (y_psi g) (ny - 2) (nx - 2)) /\
  (has_shape (x_rho g) (ny - 1) (nx - 1) /\ has_shape (y_rho g) (ny - 1) (nx - 1)) /\
  (has_shape (x_u g) (ny - 1) (nx - 2) /\ has_shape (y_u g) (ny - 1) (nx - 2)) /\
  (has_shape (x_v g) (ny - 2) (nx - 1) /\ has_shape (y_v g) (ny - 2) (nx - 1)).
Proof.
  destruct basic_tables as (BX & BY & BK).
  destruct focused_tables as (FX & FY & FK).
  destruct with_proj_tables as (PX & PY & PK).
  intros [E|[E|[E|[E|[]]]]] Hs Hg; injection E as <- <-; injection Hs as <- <-.
  - exact (@shapes_for_tables g known_xy_basic.known _ _ _ _ _ _ _ _ _ _ 10 5
             eq_refl eq_refl eq_refl eq_refl eq_refl BX BY BK Hg).
  - exact (@shapes_for_tables g known_xy_focused.known _ _ _ _ _ _ _ _ _ _ 9 9
             eq_refl eq_refl eq_refl eq_refl eq_refl FX FY FK Hg).
  - exact (@shapes_for_tables g known_xy_basic.known _ _ _ _ _ _ _ _ _ _ 10 5
             eq_refl eq_refl eq_refl eq_refl eq_refl BX BY BK Hg).
  - exact (@shapes_for_tables g known_xy_with_proj.known _ _ _ _ _ _ _ _ _ _ 10 4
             eq_refl eq_refl eq_refl eq_refl eq_refl PX PY PK Hg).
Qed.

(** X13: a grid that passes [test_xy] and the five [test_other_arrays]
    against the tables of any of the four fixture parameters obeys, within
    three test tolerances (0.045) and on its own primary arrays, the rules
    psi[i,j] = X[i+1,j+1], rho[i,j] = mean of the four nodes around it,
    u[i,j] = midpoint of X[i,j+1] and X[i+1,j+1], v[i,j] = midpoint of
    X[i+1,j] and X[i+1,j+1], in both fields. *)
Theorem tests_enforce_the_stagger_rules (name : string) (known : knowns) (g : grid) :
  In (name, known) grid_and_knowns_params ->
  array_tests g known = true ->
  (psi_within 0.045 (x g) (x_psi g) /\ psi_within 0.045 (y g) (y_psi g)) /\
  (rho_within 0.045 (x g) (x_rho g) /\ rho_within 0.045 (y g) (y_rho g)) /\
  (u_within 0.045 (x g) (x_u g) /\ u_within 0.045 (y g) (y_u g)) /\
  (v_within 0.045 (x g) (x_v g) /\ v_within 0.045 (y g) (y_v g)).
Proof.
  destruct basic_tables as (BX & BY & BK).
  destruct focused_tables as (FX & FY & FK).
  destruct with_proj_tables as (PX & PY & PK).
  intros [E|[E|[E|[E|[]]]]] Hg; injection E as <- <-.
  - exact (@rules_for_tables g known_xy_basic.known _ _ _ _ _ _ _ _ _ _ 10 5
             eq_refl eq_refl eq_refl eq_refl eq_refl BX BY BK Hg).
  - exact (@rules_for_tables g known_xy_focused.known _ _ _ _ _ _ _ _ _ _ 9 9
             eq_refl eq_refl eq_refl eq_refl eq_refl FX FY FK Hg).
  - exact (@rules_for_tables g known_xy_basic.known _ _ _ _ _ _ _ _ _ _ 10 5
             eq_refl eq_refl eq_refl eq_refl eq_refl BX BY BK Hg).
  - exact (@rules_for_tables g known_xy_with_proj.known _ _ _ _ _ _ _ _ _ _ 10 4
             eq_refl eq_refl eq_refl eq_refl eq_refl PX PY PK Hg).
Qed.

Lemma tests_enforce_the_shapes_witness :
  let g := reference_grid known_xy_with_proj.known in
  (has_shape (x g) 10 4 /\ has_shape (y g) 10 4) /\
  (has_shape (x_vert g) 10 4 /\ has_shape (y_vert g) 10 4) /\
  (has_shape (x_psi g) 8 2 /\ has_shape (y_psi g) 8 2) /\
  (has_shape (x_rho g) 9 3 /\ has_shape (y_rho g) 9 3) /\
  (has_shape (x_u g) 9 2 /\ has_shape (y_u g) 9 2) /\
  (has_shape (x_v g) 8 3 /\ has_shape (y_v g) 8 3).
Proof.
  apply (@tests_enforce_the_shapes "geographic" known_xy_with_proj.known 10 4
           (reference_grid known_xy_with_proj.known)).
  - right. right. right. left. reflexivity.
  - reflexivity.
  - vm_compute. reflexivity.
Defined.

Lemma tests_enforce_the_stagger_rules_witness :
  let g := reference_grid known_xy_focused.known in
  (psi_within 0.045 (x g) (x_psi g) /\ psi_within 0.045 (y g) (y_psi g)) /\
  (rho_within 0.045 (x g) (x_rho g) /\ rho_within 0.045 (y g) (y_rho g)) /\
  (u_within 0.045 (x g) (x_u g) /\ u_within 0.045 (y g) (y_u g)) /\
  (v_within 0.045 (x g) (x_v g) /\ v_within 0.045 (y g) (y_v g)).
Proof.
  apply (@tests_enforce_the_stagger_rules "focused" known_xy_focused.known
           (reference_grid known_xy_focused.known)).
  - right. left. reflexivity.
  - vm_compute. reflexivity.
Defined.

End OracleFacts.
